(** * Math graphics boxes (bokehjs/src/lib/core/math_graphics.ts)

    A shallow embedding of [MathBox] and its three dialect variants
    ([TeXBox], [MathMLBox], [AsciiBox]): provider loading, visual-style
    assignment, anchored position, measured size, painting with the
    plain-text fallback, and the MathML styling injection.

    JavaScript numbers are IEEE-754 doubles and are modelled by Rocq's
    primitive floats; strings are sequences of 8-bit code units; a method
    that can raise returns a [result]; a method that mutates [this] threads
    the box explicitly. *)

From Stdlib Require Import Floats ZArith Bool List Ascii String Lia.
Import ListNotations.

Local Open Scope string_scope.

(** ** Exceptions *)

Inductive exn : Type :=
| TypeError (msg : string)   (* raised by the runtime, e.g. a property read on undefined *)
| Error (msg : string)       (* [throw new Error(msg)] *)
| Foreign (tag : string).    (* raised inside an external collaborator *)

Inductive result (A : Type) : Type :=
| Ok (a : A)
| Throw (e : exn).
Arguments Ok {A} a.
Arguments Throw {A} e.

Definition is_ok {A} (r : result A) : bool :=
  match r with Ok _ => true | Throw _ => false end.

(** State-and-exception monad: a method body that may mutate a store [S]
    and may throw.  Mutations made before a throw persist. *)
Definition M (S A : Type) : Type := S -> result A * S.

Definition ret {S A} (a : A) : M S A := fun s => (Ok a, s).
Definition raise {S A} (e : exn) : M S A := fun s => (Throw e, s).
Definition bind {S A B} (m : M S A) (f : A -> M S B) : M S B :=
  fun s => match m s with
           | (Ok a, s') => f a s'
           | (Throw e, s') => (Throw e, s')
           end.
Definition get {S} : M S S := fun s => (Ok s, s).
Definition put {S} (s : S) : M S unit := fun _ => (Ok tt, s).
Definition lift {S A} (r : result A) : M S A := fun s => (r, s).

Notation "x <- m ;; k" := (bind m (fun x => k))
  (at level 61, m at next level, right associativity).
Notation "' p <- m ;; k" := (bind m (fun x => match x with p => k end))
  (at level 61, p pattern, m at next level, right associativity).

(** ** JavaScript numbers *)

Module Num.

Definition is_nan (x : float) : bool := negb (x =? x)%float.

(** ToBoolean on a number: [0], [-0] and [NaN] are falsy. *)
Definition truthy (x : float) : bool := negb (is_nan x || (x =? 0)%float).

Definition is_neg_zero (x : float) : bool :=
  (x =? 0)%float && (1 / x <? 0)%float.
Definition is_pos_zero (x : float) : bool :=
  (x =? 0)%float && (0 <? 1 / x)%float.

(** [Math.max(a, b)]: NaN if either is NaN, [+0] beats [-0], else the larger. *)
Definition max (a b : float) : float :=
  if is_nan a || is_nan b then nan
  else if is_neg_zero a && is_pos_zero b then b
  else if (a <? b)%float then b
  else a.

End Num.

(** ** JavaScript strings *)

Module Str.

Definition dquote : string := Eval cbv in String (ascii_of_nat 34) EmptyString.

Definition is_empty (s : string) : bool :=
  match s with EmptyString => true | String _ _ => false end.

(** WhiteSpace and LineTerminator code units below 256. *)
Definition is_white_space (c : ascii) : bool :=
  let n := nat_of_ascii c in
  ((9 <=? n) && (n <=? 13) || (n =? 32) || (n =? 160))%nat.

Fixpoint trimStart (s : string) : string :=
  match s with
  | EmptyString => EmptyString
  | String c s' => if is_white_space c then trimStart s' else s
  end.

Fixpoint trimEnd (s : string) : string :=
  match s with
  | EmptyString => EmptyString
  | String c s' =>
      let r := trimEnd s' in
      if is_empty r && is_white_space c then EmptyString else String c r
  end.

Definition trim (s : string) : string := trimEnd (trimStart s).

(** [s.split(sep)] for a one-character separator. *)
Fixpoint split (sep : ascii) (s : string) : list string :=
  match s with
  | EmptyString => [EmptyString]
  | String c s' =>
      if Ascii.eqb c sep then EmptyString :: split sep s'
      else match split sep s' with
           | h :: t => String c h :: t
           | [] => [String c EmptyString]
           end
  end.

(** [s.replace(/([A-z])/g, empty)]: drops every code unit in 65..122. *)
Definition in_A_z (c : ascii) : bool :=
  let n := nat_of_ascii c in ((65 <=? n) && (n <=? 122))%nat.

Fixpoint remove_A_z (s : string) : string :=
  match s with
  | EmptyString => EmptyString
  | String c s' => if in_A_z c then remove_A_z s' else String c (remove_A_z s')
  end.

(** [s.indexOf(sub)], [-1] when absent. *)
Fixpoint indexOf_from (sub s : string) (i : Z) : Z :=
  if String.prefix sub s then i
  else match s with
       | EmptyString => (-1)%Z
       | String _ s' => indexOf_from sub s' (i + 1)%Z
       end.
Definition indexOf (s sub : string) : Z := indexOf_from sub s 0%Z.

Definition includes (s sub : string) : bool := (0 <=? indexOf s sub)%Z.

Definition len (s : string) : Z := Z.of_nat (String.length s).

(** [s.slice(start, end)] with relative (negative) indices. *)
Definition rel_index (n i : Z) : Z :=
  if (i <? 0)%Z then Z.max (n + i) 0 else Z.min i n.
Definition slice (s : string) (i j : Z) : string :=
  let n := len s in
  let a := rel_index n i in
  let b := rel_index n j in
  String.substring (Z.to_nat a) (Z.to_nat (b - a)) s.
Definition slice_from (s : string) (i : Z) : string := slice s i (len s).

End Str.

(** ** Regular expressions

    The backtracking matcher of the language definition, in continuation
    style: a continuation receives the remaining input and returns the
    input left at the end of the whole match.  Alternatives are tried in
    priority order, so the first success is the match the engine reports. *)

Module RegExp.

Inductive regex : Type :=
| Lit (c : ascii)
| Class (p : ascii -> bool)
| Seq (r1 r2 : regex)
| Opt (r : regex)                (* [r?], greedy: one iteration first *)
| LazyStar (p : ascii -> bool).  (* [c*?] over a one-character class *)

Definition cont : Type := string -> option string.

Fixpoint lazy_star (p : ascii -> bool) (k : cont) (s : string) : option string :=
  match k s with
  | Some r => Some r
  | None =>
      match s with
      | String c s' => if p c then lazy_star p k s' else None
      | EmptyString => None
      end
  end.

Fixpoint matcher (r : regex) (k : cont) (s : string) : option string :=
  match r with
  | Lit c =>
      match s with
      | String d s' => if Ascii.eqb c d then k s' else None
      | EmptyString => None
      end
  | Class p =>
      match s with
      | String d s' => if p d then k s' else None
      | EmptyString => None
      end
  | Seq r1 r2 => matcher r1 (matcher r2 k) s
  | Opt r1 =>
      match matcher r1 k s with
      | Some x => Some x
      | None => k s
      end
  | LazyStar p => lazy_star p k s
  end.

(** A literal word; the word is never empty where it is used. *)
Fixpoint word (c : ascii) (w : string) : regex :=
  match w with
  | EmptyString => Lit c
  | String d w' => Seq (Lit c) (word d w')
  end.

Definition any (c : ascii) : bool := true.           (* [.] under the [s] flag *)
Definition not_char (x : ascii) (c : ascii) : bool := negb (Ascii.eqb x c).

(** The match at the leftmost start index, as its matched text. *)
Fixpoint exec (r : regex) (s : string) : option string :=
  match matcher r Some s with
  | Some rest =>
      Some (String.substring 0 (String.length s - String.length rest) s)
  | None =>
      match s with
      | String _ s' => exec r s'
      | EmptyString => None
      end
  end.

(** [/<math(.*?[^?])?>/s] *)
Definition open_math : regex :=
  Seq (word "<" "math")
      (Seq (Opt (Seq (LazyStar any) (Class (not_char "?"))))
           (Lit ">")).

(** [/<\/[^>]*?math.*?>/s] *)
Definition close_math : regex :=
  Seq (word "<" "/")
      (Seq (LazyStar (not_char ">"))
           (Seq (word "m" "ath")
                (Seq (LazyStar any) (Lit ">")))).

End RegExp.

(** ** Data model *)

Module Size.
Record t : Type := mk { width : float; height : float }.
End Size.

Module FontMetrics.
Record t : Type := mk {
  ascent : float;
  descent : float;
  height : float;
  x_height : float;
}.
End FontMetrics.

(** A parsed CSS length [{value, unit}]; also the shape of the declared
    [width] / [height] constraints of a box. *)
Module Length.
Record t : Type := mk { value : float; unit : string }.
End Length.

(** The vector graphic handle: queried only through [getAttribute]. *)
Record SVGSVGElement : Type := { attributes : list (string * string) }.

Fixpoint assoc (k : string) (m : list (string * string)) : option string :=
  match m with
  | [] => None
  | (k', v) :: m' => if String.eqb k k' then Some v else assoc k m'
  end.

(** [el.getAttribute(name)] on a possibly undefined element. *)
Definition getAttribute (el : option SVGSVGElement) (name : string)
  : result (option string) :=
  match el with
  | Some e => Ok (assoc name (attributes e))
  | None => Throw (TypeError "Cannot read properties of undefined (reading 'getAttribute')")
  end.

(** Commands received by the drawing surface ([Context2d]). *)
Inductive Cmd : Type :=
| Save
| Restore
| Translate (x y : float)
| Rotate (angle : float)
| SetFillStyle (s : string)
| SetFont (s : string)
| SetTextAlign (s : string)
| SetTextBaseline (s : string)
| FillText (s : string) (x y : float)
| Composite (tag : string).   (* a primitive issued by the external compositor *)

(** The typesetting engine, available once the provider has loaded it. *)
Record ConvertOptions : Type := { em : float; ex : float }.

Record MathJaxCanvas : Type := {
  (* commands issued on the surface, then normal completion or a throw *)
  draw : list Cmd * result unit;
}.

Record MathJaxAPI : Type := {
  tex2svg : string -> ConvertOptions -> result (list SVGSVGElement);
  mathml2svg : string -> ConvertOptions -> result (list SVGSVGElement);
  new_MathJaxCanvas : option SVGSVGElement -> Size.t -> result MathJaxCanvas;
}.

Inductive Status : Type := not_started | loading | loaded | failed.

Definition Status_eqb (a b : Status) : bool :=
  match a, b with
  | not_started, not_started | loading, loading
  | loaded, loaded | failed, failed => true
  | _, _ => false
  end.

Record MathJaxProvider : Type := {
  status : Status;
  MathJax : option MathJaxAPI;
}.

(** Modelled from the spec: the provider class (models/text/providers) is
    not among the sources.  The provider holds a handle to the conversion
    API once loaded, so a handle is present only in state [loaded]. *)
Definition provider_consistent (p : MathJaxProvider) : Prop :=
  match MathJax p with
  | Some _ => status p = loaded
  | None => True
  end.

Inductive XAnchor : Type :=
| XFraction (f : float)
| XLeft | XCenter | XRight.

Inductive YAnchor : Type :=
| YFraction (f : float)
| YTop | YCenter | YBottom | YBaseline.

Module Position.
Record t : Type := mk {
  sx : float;
  sy : float;
  x_anchor : option XAnchor;
  y_anchor : option YAnchor;
}.
End Position.

Inductive Dialect : Type := TeX | MathML | Ascii.

(** The fields of [GraphicsBox] that [MathBox] reads, then its own. *)
Record MathBox : Type := {
  kind : Dialect;
  position : Position.t;
  angle : option float;
  width : option Length.t;
  height : option Length.t;
  font_size_scale : float;
  _base_font_size : float;
  base_font_size : float;
  _x_anchor : XAnchor;
  _y_anchor : YAnchor;
  font : string;
  color : string;
  text : string;
  valign : float;
}.

Definition set_valign (v : float) (b : MathBox) : MathBox :=
  {| kind := kind b; position := position b; angle := angle b;
     width := width b; height := height b;
     font_size_scale := font_size_scale b;
     _base_font_size := _base_font_size b;
     base_font_size := base_font_size b;
     _x_anchor := _x_anchor b; _y_anchor := _y_anchor b;
     font := font b; color := color b; text := text b;
     valign := v |}.

Definition set_position (p : Position.t) (b : MathBox) : MathBox :=
  {| kind := kind b; position := p; angle := angle b;
     width := width b; height := height b;
     font_size_scale := font_size_scale b;
     _base_font_size := _base_font_size b;
     base_font_size := base_font_size b;
     _x_anchor := _x_anchor b; _y_anchor := _y_anchor b;
     font := font b; color := color b; text := text b;
     valign := valign b |}.

Definition set_y_anchor_default (a : YAnchor) (b : MathBox) : MathBox :=
  {| kind := kind b; position := position b; angle := angle b;
     width := width b; height := height b;
     font_size_scale := font_size_scale b;
     _base_font_size := _base_font_size b;
     base_font_size := base_font_size b;
     _x_anchor := _x_anchor b; _y_anchor := a;
     font := font b; color := color b; text := text b;
     valign := valign b |}.

(** The payload of the style assignment ([visuals.Text] values). *)
Module Visuals.
Record t : Type := mk {
  color : string;
  alpha : float;
  font_style : string;
  font_size : string;
  font : string;
  align : XAnchor;
  baseline : string;
}.
End Visuals.

(** Helpers imported from modules that are not among the sources
    (core/util/text, core/util/color) and the runtime's number parsing
    and printing; the model is parametric in them. *)
Record Host : Type := {
  font_metrics : string -> FontMetrics.t;
  parse_css_font_size : string -> option Length.t;
  parse_css_length : option string -> result (option Length.t);
  color2css : string -> float -> string;
  color2hexrgb : string -> string;
  color2rgba : string -> float * float * float * float;
  parseFloat : string -> float;
  Number_toString : float -> string;
}.

(** Modelled from the spec: [insert_text_on_position] (core/util/string)
    is not among the sources; it splices [text] into [destination] at
    [position], keeping what is before and after it. *)
Definition insert_text_on_position (destination : string) (position : Z)
    (text : string) : string :=
  Str.slice destination 0 position ++ text ++ Str.slice_from destination position.

(** ** Provider loading

    An [async] method is the sequence of its suspension points.  The
    method under study suspends only on the provider's fetch. *)

Inductive Async (A : Type) : Type :=
| Return (a : A)
| AwaitFetch (k : Async A)       (* [await this.provider.fetch()], then [k] *)
| AwaitInFlight (k : Async A).   (* wait for a fetch that was started earlier *)
Arguments Return {A} a.
Arguments AwaitFetch {A} k.
Arguments AwaitInFlight {A} k.

Definition load_provider (provider : MathJaxProvider) : Async unit :=
  if Status_eqb (status provider) not_started
  then AwaitFetch (Return tt)
  else Return tt.

(** The provider's load operation as the specification words it. *)
Definition load_as_specified (provider : MathJaxProvider) : Async unit :=
  match status provider with
  | not_started => AwaitFetch (Return tt)
  | loading => AwaitInFlight (Return tt)
  | loaded | failed => Return tt
  end.

(** Modelled from the spec: [fetch] belongs to the provider class, which is
    not among the sources.  A fetch moves the provider through [loading] to
    the state it settles in, with the engine handle on success.  The run
    counts the fetches started and gives the provider as the caller sees it
    when the method's promise resolves; a fetch started by someone else
    settles only if the method waits for it. *)
Inductive Outcome : Type :=
| Fetched (mj : MathJaxAPI)
| FetchFailed.

Definition settle (o : Outcome) : MathJaxProvider :=
  match o with
  | Fetched mj => {| status := loaded; MathJax := Some mj |}
  | FetchFailed => {| status := failed; MathJax := None |}
  end.

Fixpoint run_async {A} (o : Outcome) (prog : Async A) (p : MathJaxProvider)
  : A * MathJaxProvider * nat :=
  match prog with
  | Return a => (a, p, 0)
  | AwaitFetch k =>
      let '(a, p', n) := run_async o k (settle o) in (a, p', S n)
  | AwaitInFlight k => run_async o k (settle o)
  end.

Section Box.

Variable H : Host.
Variable provider : MathJaxProvider.   (* [this.provider], the shared default provider *)

(** ** Style assignment *)

(** Lines 56-61 of the setter: the parsed size, scaled, with [em]
    converted to [px] against a truthy base size. *)
Definition derived_font_size (b : MathBox) (res : Length.t) : Length.t :=
  let value := (Length.value res * font_size_scale b)%float in
  if String.eqb (Length.unit res) "em" && Num.truthy (_base_font_size b)
  then Length.mk (value * _base_font_size b)%float "px"
  else Length.mk value (Length.unit res).

Definition derived_size_string (b : MathBox) (size : string) : string :=
  match parse_css_font_size H size with
  | Some res =>
      let r := derived_font_size b res in
      Number_toString H (Length.value r) ++ Length.unit r
  | None => size
  end.

Definition y_anchor_of_baseline (baseline : string) : YAnchor :=
  if String.eqb baseline "top" then YTop
  else if String.eqb baseline "middle" then YCenter
  else if String.eqb baseline "bottom" then YBottom
  else YBaseline.

Definition set_visuals (v : Visuals.t) (b : MathBox) : MathBox :=
  let size := derived_size_string b (Visuals.font_size v) in
  {| kind := kind b; position := position b; angle := angle b;
     width := width b; height := height b;
     font_size_scale := font_size_scale b;
     _base_font_size := _base_font_size b;
     base_font_size := base_font_size b;
     _x_anchor := Visuals.align v;
     _y_anchor := y_anchor_of_baseline (Visuals.baseline v);
     font := Visuals.font_style v ++ " " ++ size ++ " " ++ Visuals.font v;
     color := color2css H (Visuals.color v) (Visuals.alpha v);
     text := text b;
     valign := valign b |}.

(** ** Dialect variants *)

Definition bold (b : MathBox) : bool := Str.includes (font b) "bold".

Definition color_RGB (b : MathBox) : string :=
  let '(r, g, bl, _) := color2rgba H (color b) in
  "\color[RGB]{" ++ Number_toString H r ++ ", " ++ Number_toString H g
    ++ ", " ++ Number_toString H bl ++ "}".

Definition TeXBox_styled_formula (b : MathBox) : string :=
  color_RGB b ++ " "
    ++ (if bold b then "\bf{" ++ text b ++ "}" else text b).

Definition mstyle_open (b : MathBox) : string :=
  "<mstyle displaystyle=" ++ Str.dquote ++ "true" ++ Str.dquote
    ++ " mathcolor=" ++ Str.dquote ++ color2hexrgb H (color b) ++ Str.dquote
    ++ " "
    ++ (if bold b then "mathvariant=" ++ Str.dquote ++ "bold" ++ Str.dquote
        else EmptyString)
    ++ ">".

Definition MathMLBox_styled_formula (b : MathBox) : string :=
  let styled := Str.trim (text b) in
  match RegExp.exec RegExp.open_math styled with
  | None => Str.trim (text b)
  | Some m0 =>
      let styled :=
        insert_text_on_position styled
          (Str.indexOf styled m0 + Str.len m0)%Z (mstyle_open b) in
      match RegExp.exec RegExp.close_math styled with
      | None => Str.trim (text b)
      | Some m1 =>
          insert_text_on_position styled (Str.indexOf styled m1) "</mstyle>"
      end
  end.

Definition AsciiBox_styled_formula (b : MathBox) : string :=
  let ascii := "\text " ++ text b in
  color_RGB b ++ " " ++ (if bold b then "\bf{" ++ ascii ++ "}" else ascii).

Definition styled_formula (b : MathBox) : string :=
  match kind b with
  | TeX => TeXBox_styled_formula b
  | MathML => MathMLBox_styled_formula b
  | Ascii => AsciiBox_styled_formula b
  end.

Definition not_loaded_error : exn :=
  Error "Please load MathJax before calling to_svg()".

Definition convert_options (b : MathBox) : ConvertOptions :=
  {| em := base_font_size b;
     ex := FontMetrics.x_height (font_metrics H (font b)) |}.

(** [.children[0]] of the returned container; undefined when it is empty. *)
Definition first_child (r : result (list SVGSVGElement))
  : result (option SVGSVGElement) :=
  match r with
  | Ok children => Ok (hd_error children)
  | Throw e => Throw e
  end.

Definition TeXBox_to_svg (b : MathBox) : result (option SVGSVGElement) :=
  match MathJax provider with
  | None => Throw not_loaded_error
  | Some mj => first_child (tex2svg mj (TeXBox_styled_formula b) (convert_options b))
  end.

Definition MathMLBox_to_svg (b : MathBox) : result (option SVGSVGElement) :=
  match MathJax provider with
  | None => Throw not_loaded_error
  | Some mj => first_child (mathml2svg mj (MathMLBox_styled_formula b) (convert_options b))
  end.

Definition AsciiBox_to_svg (b : MathBox) : result (option SVGSVGElement) :=
  match MathJax provider with
  | None => Throw not_loaded_error
  | Some mj => first_child (tex2svg mj (AsciiBox_styled_formula b) (convert_options b))
  end.

Definition to_svg (b : MathBox) : result (option SVGSVGElement) :=
  match kind b with
  | TeX => TeXBox_to_svg b
  | MathML => MathMLBox_to_svg b
  | Ascii => AsciiBox_to_svg b
  end.

(** ** Size *)

Definition placeholder : Size.t := Size.mk 13 13.

(** One step of the [forEach] over the style declarations:
    [const [rule, value] = property.split(":")], then
    [if (rule) rulesMap.set(rule.trim(), value.trim())]. *)
Definition add_rule (rulesMap : list (string * string)) (property : string)
  : result (list (string * string)) :=
  match Str.split ":" property with
  | [] => Ok rulesMap
  | rule :: rest =>
      if Str.is_empty rule then Ok rulesMap
      else match rest with
           | value :: _ => Ok ((Str.trim rule, Str.trim value) :: rulesMap)
           | [] => Throw (TypeError "Cannot read properties of undefined (reading 'trim')")
           end
  end.

Fixpoint add_rules (rulesMap : list (string * string)) (props : list string)
  : result (list (string * string)) :=
  match props with
  | [] => Ok rulesMap
  | property :: rest =>
      match add_rule rulesMap property with
      | Ok m => add_rules m rest
      | Throw e => Throw e
      end
  end.

(** The parsed [vertical-align] declaration of a style attribute. *)
Definition v_align_of (style : string) : result (option Length.t) :=
  match add_rules [] (Str.split ";" style) with
  | Ok rulesMap => parse_css_length H (assoc "vertical-align" rulesMap)
  | Throw e => Throw e
  end.

(** The assignment to [this.valign] guarded by the unit of [v_align]. *)
Definition store_valign (fmetrics : FontMetrics.t) (v_align : option Length.t)
  : M MathBox unit :=
  match v_align with
  | Some l =>
      if String.eqb (Length.unit l) "ex" then
        fun b => (Ok tt, set_valign (Length.value l * FontMetrics.x_height fmetrics)%float b)
      else if String.eqb (Length.unit l) "px" then
        fun b => (Ok tt, set_valign (Length.value l) b)
      else ret tt
  | None => ret tt
  end.

Definition attr_number (a : option string) : float :=
  parseFloat H (match a with
                | Some s => Str.remove_A_z s
                | None => "0"
                end).

Definition svg_size : M MathBox Size.t :=
  match MathJax provider with
  | None => ret placeholder
  | Some _ =>
      b <- get ;;
      svg_element <- lift (to_svg b) ;;
      let fmetrics := font_metrics H (font b) in
      h <- lift (getAttribute svg_element "height") ;;
      let heightEx := attr_number h in
      w <- lift (getAttribute svg_element "width") ;;
      let widthEx := attr_number w in
      svg_styles <- lift (getAttribute svg_element "style") ;;
      _ <- match svg_styles with
           | Some style =>
               v_align <- lift (v_align_of style) ;;
               store_valign fmetrics v_align
           | None => ret tt
           end ;;
      ret (Size.mk (FontMetrics.x_height fmetrics * widthEx)
                   (FontMetrics.x_height fmetrics * heightEx))
  end.

(** [c?.unit == "%"] *)
Definition is_percent (c : option Length.t) : bool :=
  match c with
  | Some l => String.eqb (Length.unit l) "%"
  | None => false
  end.

(** [c?.unit == "%" ? c.value : 1] *)
Definition percent_scale (c : option Length.t) : float :=
  match c with
  | Some l => if String.eqb (Length.unit l) "%" then Length.value l else 1%float
  | None => 1%float
  end.

Definition _size : M MathBox Size.t :=
  match MathJax provider with
  | None => ret placeholder
  | Some _ =>
      b <- get ;;
      let fmetrics := font_metrics H (font b) in
      sz <- svg_size ;;
      let measured := Num.max (Size.height sz) (FontMetrics.height fmetrics) in
      b' <- get ;;
      let w_scale := percent_scale (width b') in
      let h_scale := percent_scale (height b') in
      ret (Size.mk (Size.width sz * w_scale) (measured * h_scale))
  end.

(** ** Position *)

Definition x_offset (x_anchor : XAnchor) (width : float) : float :=
  match x_anchor with
  | XFraction a => a * width
  | XLeft => 0
  | XCenter => 0.5 * width
  | XRight => width
  end.

(** [metrics.height > height] is written [height <? metrics.height]. *)
Definition y_offset (y_anchor : YAnchor) (height : float)
    (metrics : FontMetrics.t) (valign : float) : float :=
  match y_anchor with
  | YFraction a => a * height
  | YTop =>
      if (height <? FontMetrics.height metrics)%float
      then height - (- valign - FontMetrics.descent metrics) - FontMetrics.height metrics
      else 0
  | YCenter => 0.5 * height
  | YBottom =>
      if (height <? FontMetrics.height metrics)%float
      then height + FontMetrics.descent metrics + valign
      else height
  | YBaseline => 0.5 * height
  end.

Definition resolved_x_anchor (b : MathBox) : XAnchor :=
  match Position.x_anchor (position b) with
  | Some a => a
  | None => _x_anchor b
  end.

Definition resolved_y_anchor (b : MathBox) : YAnchor :=
  match Position.y_anchor (position b) with
  | Some a => a
  | None => _y_anchor b
  end.

Definition _computed_position : M MathBox (float * float) :=
  sz <- _size ;;
  b <- get ;;
  let metrics := font_metrics H (font b) in
  let x := (Position.sx (position b)
            - x_offset (resolved_x_anchor b) (Size.width sz))%float in
  let y := (Position.sy (position b)
            - y_offset (resolved_y_anchor b) (Size.height sz) metrics (valign b))%float in
  ret (x, y).

(** ** Paint *)

(** What a call of [paint] acts on: the box, the commands the surface
    has received, and the error console. *)
Record World : Type := {
  box : MathBox;
  ctx : list Cmd;
  console : list exn;
}.

Definition on_box {A} (m : M MathBox A) : M World A :=
  fun w =>
    let '(r, b') := m (box w) in
    (r, {| box := b'; ctx := ctx w; console := console w |}).

Definition issue (cs : list Cmd) : M World unit :=
  fun w => (Ok tt, {| box := box w; ctx := ctx w ++ cs; console := console w |}).

Definition console_error (e : exn) : M World unit :=
  fun w => (Ok tt, {| box := box w; ctx := ctx w; console := console w ++ [e] |}).

Definition try_catch {S A} (body : M S A) (handler : exn -> M S A) : M S A :=
  fun s =>
    match body s with
    | (Ok a, s') => (Ok a, s')
    | (Throw e, s') => handler e s'
    end.

(** The body of the [try] block, lines 196-198. *)
Definition composite (x y : float) : M World unit :=
  match MathJax provider with
  | None => raise (TypeError "Cannot read properties of null (reading 'MathJaxCanvas')")
  | Some mj =>
      w <- get ;;
      svg <- lift (to_svg (box w)) ;;
      size <- on_box svg_size ;;
      mathjax_canvas <- lift (new_MathJaxCanvas mj svg size) ;;
      _ <- issue [Translate x y] ;;
      _ <- issue (fst (draw mathjax_canvas)) ;;
      lift (snd (draw mathjax_canvas))
  end.

(** The body of the [catch] block, lines 200-205. *)
Definition fallback (x y : float) (error : exn) : M World unit :=
  _ <- console_error error ;;
  w <- get ;;
  let b := box w in
  issue [ SetFillStyle (color b);
          SetFont (font b);
          SetTextAlign "left";
          SetTextBaseline "alphabetic";
          FillText (text b) x (y + FontMetrics.ascent (font_metrics H (font b))) ].

Definition rotation (sx sy : float) (a : option float) : list Cmd :=
  match a with
  | Some angle =>
      if negb (angle =? 0)%float
      then [Translate sx sy; Rotate angle; Translate (- sx) (- sy)]
      else []
  | None => []
  end.

Definition paint : M World unit :=
  _ <- issue [Save] ;;
  w <- get ;;
  let sx := Position.sx (position (box w)) in
  let sy := Position.sy (position (box w)) in
  let a := angle (box w) in
  ' (x, y) <- on_box _computed_position ;;
  _ <- issue (rotation sx sy a) ;;
  _ <- try_catch (composite x y) (fallback x y) ;;
  issue [Restore].

End Box.

(** How often a command occurs in a trace. *)
Definition is_restore (c : Cmd) : bool :=
  match c with Restore => true | _ => false end.
Definition is_save (c : Cmd) : bool :=
  match c with Save => true | _ => false end.
Definition restores (t : list Cmd) : nat := List.length (filter is_restore t).
Definition saves (t : list Cmd) : nat := List.length (filter is_save t).

(** ** Vocabulary of the statements *)

(** The box with its vertical anchors replaced: the override carried by
    the position and the default set from the baseline styling. *)
Definition with_y (o : option YAnchor) (d : YAnchor) (b : MathBox) : MathBox :=
  set_y_anchor_default d
    (set_position
       {| Position.sx := Position.sx (position b);
          Position.sy := Position.sy (position b);
          Position.x_anchor := Position.x_anchor (position b);
          Position.y_anchor := o |} b).

(** The vector graphic carries a style attribute with a [vertical-align]
    declaration whose length parses with unit [ex] or [px]. *)
Definition sets_valign (H : Host) (svg : option SVGSVGElement) : bool :=
  match svg with
  | Some el =>
      match assoc "style" (attributes el) with
      | Some style =>
          match v_align_of H style with
          | Ok (Some l) =>
              String.eqb (Length.unit l) "ex" || String.eqb (Length.unit l) "px"
          | _ => false
          end
      | None => false
      end
  | None => false
  end.

(** ** A concrete environment for the examples

    A host that agrees with the real helpers on the few strings and
    numbers the examples below pass to them. *)

Module Demo.

Definition metrics : FontMetrics.t :=
  {| FontMetrics.ascent := 10; FontMetrics.descent := 4;
     FontMetrics.height := 30; FontMetrics.x_height := 6 |}.

Definition host : Host :=
  {| font_metrics := fun _ => metrics;
     parse_css_font_size := fun s =>
       if String.eqb s "2em" then Some (Length.mk 2 "em") else None;
     parse_css_length := fun o =>
       match o with
       | Some s =>
           if String.eqb s "2px" then Ok (Some (Length.mk 2 "px"))
           else if String.eqb s "5pt" then Ok (Some (Length.mk 5 "pt"))
           else Ok None
       | None => Ok None
       end;
     color2css := fun c _ => c;
     color2hexrgb := fun c => c;
     color2rgba := fun _ => (255, 0, 0, 1)%float;
     parseFloat := fun s =>
       if String.eqb s "0" then 0%float
       else if String.eqb s "2" then 2%float
       else if String.eqb s "3" then 3%float
       else nan;
     Number_toString := fun x =>
       if (x =? 13)%float then "13"
       else if (x =? 26)%float then "26"
       else if (x =? 255)%float then "255"
       else if (x =? 0)%float then "0"
       else "NaN" |}.

(** Vector graphics as an engine may hand them out. *)
Definition svg_plain : SVGSVGElement :=
  {| attributes := [("height", "2ex"); ("width", "3ex")] |}.
Definition svg_aligned : SVGSVGElement :=
  {| attributes := [("height", "2ex"); ("width", "3ex");
                    ("style", "vertical-align: 2px;")] |}.
Definition svg_points : SVGSVGElement :=
  {| attributes := [("height", "2ex"); ("width", "3ex");
                    ("style", "vertical-align: 5pt;")] |}.
Definition svg_malformed : SVGSVGElement :=
  {| attributes := [("height", "2ex"); ("width", "3ex");
                    ("style", "vertical-align")] |}.

Definition canvas : MathJaxCanvas := {| draw := ([Composite "svg"], Ok tt) |}.

Definition engine (svg : SVGSVGElement) : MathJaxAPI :=
  {| tex2svg := fun _ _ => Ok [svg];
     mathml2svg := fun _ _ => Ok [svg];
     new_MathJaxCanvas := fun _ _ => Ok canvas |}.

Definition engine_rejecting : MathJaxAPI :=
  {| tex2svg := fun _ _ => Throw (Foreign "conversion failed");
     mathml2svg := fun _ _ => Throw (Foreign "conversion failed");
     new_MathJaxCanvas := fun _ _ => Ok canvas |}.

Definition provider_with (mj : MathJaxAPI) : MathJaxProvider :=
  {| status := loaded; MathJax := Some mj |}.
Definition provider_not_started : MathJaxProvider :=
  {| status := not_started; MathJax := None |}.
Definition provider_loading : MathJaxProvider :=
  {| status := loading; MathJax := None |}.
Definition provider_failed : MathJaxProvider :=
  {| status := failed; MathJax := None |}.

Definition caret : Position.t :=
  {| Position.sx := 100; Position.sy := 100;
     Position.x_anchor := None; Position.y_anchor := None |}.

Definition tex_box (constraint : option Length.t) (scale : float) : MathBox :=
  {| kind := TeX; position := caret; angle := None;
     width := None; height := constraint;
     font_size_scale := scale; _base_font_size := 13; base_font_size := 13;
     _x_anchor := XLeft; _y_anchor := YTop;
     font := "normal 13px sans"; color := "#ff0000"; text := "x^2";
     valign := 0 |}.

(** A box whose base font size is zero. *)
Definition baseless_box : MathBox :=
  {| kind := TeX; position := caret; angle := None;
     width := None; height := None;
     font_size_scale := 1; _base_font_size := 0; base_font_size := 0;
     _x_anchor := XLeft; _y_anchor := YTop;
     font := "normal 13px sans"; color := "#ff0000"; text := "x^2";
     valign := 0 |}.

Definition mathml_box (formula : string) : MathBox :=
  {| kind := MathML; position := caret; angle := None;
     width := None; height := None;
     font_size_scale := 1; _base_font_size := 13; base_font_size := 13;
     _x_anchor := XLeft; _y_anchor := YTop;
     font := "normal 13px sans"; color := "#ff0000"; text := formula;
     valign := 0 |}.

Definition style : Visuals.t :=
  {| Visuals.color := "#ff0000"; Visuals.alpha := 1;
     Visuals.font_style := "normal"; Visuals.font_size := "2em";
     Visuals.font := "sans"; Visuals.align := XLeft;
     Visuals.baseline := "top" |}.

End Demo.

(** ** Further methods and vocabulary *)

(** The argument of [new BBox({x, y, width, height})]. *)
Module BBox.
Record t : Type := mk { x : float; y : float; width : float; height : float }.
End BBox.

Section Rect.

Variable H : Host.
Variable provider : MathJaxProvider.
Variable Rect : Type.
Variable bbox_rect : BBox.t -> result Rect.   (* [new BBox(...).rect] of core/util/bbox *)

Definition _rect : M MathBox Rect :=
  sz <- _size H provider ;;
  ' (x, y) <- _computed_position H provider ;;
  lift (bbox_rect (BBox.mk x y (Size.width sz) (Size.height sz))).

End Rect.

Definition set_text (t : string) (b : MathBox) : MathBox :=
  {| kind := kind b; position := position b; angle := angle b;
     width := width b; height := height b;
     font_size_scale := font_size_scale b;
     _base_font_size := _base_font_size b;
     base_font_size := base_font_size b;
     _x_anchor := _x_anchor b; _y_anchor := _y_anchor b;
     font := font b; color := color b; text := t;
     valign := valign b |}.

Definition set_baseline (k : string) (v : Visuals.t) : Visuals.t :=
  {| Visuals.color := Visuals.color v; Visuals.alpha := Visuals.alpha v;
     Visuals.font_style := Visuals.font_style v;
     Visuals.font_size := Visuals.font_size v;
     Visuals.font := Visuals.font v; Visuals.align := Visuals.align v;
     Visuals.baseline := k |}.

(** The character [c] occurs in [s]. *)
Fixpoint has_char (c : ascii) (s : string) : bool :=
  match s with
  | EmptyString => false
  | String d s' => Ascii.eqb d c || has_char c s'
  end.

(** A style declaration that the loop of [svg_size] can process: it is
    empty or has a colon. *)
Definition well_formed_declaration (property : string) : bool :=
  Str.is_empty property || has_char ":" property.

(** The conversion call of the box's dialect, given the engine. *)
Definition conversion (H : Host) (mj : MathJaxAPI) (b : MathBox)
  : result (list SVGSVGElement) :=
  match kind b with
  | TeX => tex2svg mj (TeXBox_styled_formula H b) (convert_options H b)
  | MathML => mathml2svg mj (MathMLBox_styled_formula H b) (convert_options H b)
  | Ascii => tex2svg mj (AsciiBox_styled_formula H b) (convert_options H b)
  end.

(** Further engines for the examples. *)
Module Demo2.

Definition engine_empty : MathJaxAPI :=
  {| tex2svg := fun _ _ => Ok [];
     mathml2svg := fun _ _ => Ok [];
     new_MathJaxCanvas := fun _ _ => Ok Demo.canvas |}.

(** A compositor that draws one primitive and then throws. *)
Definition canvas_failing : MathJaxCanvas :=
  {| draw := ([Composite "partial"], Throw (Foreign "draw failed")) |}.

Definition engine_failing_draw : MathJaxAPI :=
  {| tex2svg := fun _ _ => Ok [Demo.svg_plain];
     mathml2svg := fun _ _ => Ok [Demo.svg_plain];
     new_MathJaxCanvas := fun _ _ => Ok canvas_failing |}.

Definition world (b : MathBox) : World :=
  {| box := b; ctx := []; console := [] |}.

Definition rotated_box : MathBox :=
  {| kind := TeX; position := Demo.caret; angle := Some 0.5%float;
     width := None; height := None;
     font_size_scale := 1; _base_font_size := 13; base_font_size := 13;
     _x_anchor := XCenter; _y_anchor := YCenter;
     font := "normal 13px sans"; color := "#ff0000"; text := "x^2";
     valign := 0 |}.

End Demo2.

(** ** The tap tool (bokehjs/src/lib/models/tools/gestures/tap_tool.ts)

    The view's collaborators (the frame, the selection managers, the
    callback, the plot state) are parameters; what the view asks of them is
    recorded as a trace of actions, in order. *)

Module TapTool.

Inductive TapGesture : Type := tap | doubletap.
Inductive TapBehavior : Type := select | inspect.

(** The modifier keys of an event. *)
Module KeyModifiers.
Record t : Type := mk { shift : bool; ctrl : bool; alt : bool }.
End KeyModifiers.

(** The model's [modifiers]: every key is optional. *)
Module Wanted.
Record t : Type := mk {
  shift : option bool;
  ctrl : option bool;
  alt : option bool;
}.
End Wanted.

Record TapEvent : Type := {
  sx : float;
  sy : float;
  modifiers : KeyModifiers.t;
}.

(** [{type: "point", sx, sy}] *)
Module PointGeometry.
Record t : Type := mk { sx : float; sy : float }.
End PointGeometry.

Section View.

Variables Source Renderer RendererView Mode Callback : Type.

(** [{...geometry, x, y}] *)
Record DataGeometry : Type := {
  geometry : PointGeometry.t;
  x : float;
  y : float;
}.

Inductive Action : Type :=
| ClearOtherOverlays
| SelectionSelect (source : Source) (views : list RendererView)
    (g : PointGeometry.t) (final : bool) (mode : Mode)
| SelectionInspect (source : Source) (views : list RendererView)
    (g : PointGeometry.t) (final : bool) (mode : Mode)
| CallbackExecute (callback : Callback) (geometries : list DataGeometry)
    (source : Source) (event_modifiers : option KeyModifiers.t)
| EmitSelectionEvent (g : PointGeometry.t)
| PushState.

Record Model : Type := {
  behavior : TapBehavior;
  gesture : TapGesture;
  wanted : Wanted.t;                 (* [model.modifiers] *)
  callback : option Callback;
}.

(** The collaborators of the view.  A selection manager answers whether it
    hit anything; its answer may depend on everything done before. *)
Record Plot : Type := {
  frame_contains : float -> float -> bool;
  _select_mode : KeyModifiers.t -> Mode;
  _computed_renderers_by_data_source : list (Source * list Renderer);
  renderer_view : Renderer -> option RendererView;
  x_invert : RendererView -> float -> float;
  y_invert : RendererView -> float -> float;
  did_hit : list Action -> Source -> list RendererView -> bool;
}.

Variable model : Model.
Variable plot : Plot.

(** [want != null && want != got] *)
Definition differs (want : option bool) (got : bool) : bool :=
  match want with
  | Some b => negb (Bool.eqb b got)
  | None => false
  end.

Definition handle_event (ev : TapEvent) : bool :=
  if differs (Wanted.shift (wanted model)) (KeyModifiers.shift (modifiers ev))
  then false
  else if differs (Wanted.ctrl (wanted model)) (KeyModifiers.ctrl (modifiers ev))
  then false
  else if differs (Wanted.alt (wanted model)) (KeyModifiers.alt (modifiers ev))
  then false
  else true.

Fixpoint renderer_views (renderers : list Renderer) : list RendererView :=
  match renderers with
  | [] => []
  | r :: rest =>
      match renderer_view plot r with
      | Some rv => rv :: renderer_views rest
      | None => renderer_views rest
      end
  end.

Definition _emit_callback (views : list RendererView) (g : PointGeometry.t)
    (source : Source) (mods : option KeyModifiers.t) : list Action :=
  match callback model with
  | Some cb =>
      if negb (Nat.eqb (List.length views) 0) then
        [CallbackExecute cb
           (map (fun rv =>
                   {| geometry := g;
                      x := x_invert plot rv (PointGeometry.sx g);
                      y := y_invert plot rv (PointGeometry.sy g) |}) views)
           source mods]
      else []
  | None => []
  end.

(** The loop over the sources, continuing the trace [done]. *)
Fixpoint select_loop (sources : list (Source * list Renderer))
    (g : PointGeometry.t) (final : bool) (mode : Mode)
    (mods : option KeyModifiers.t) (done : list Action) : list Action :=
  match sources with
  | [] => done
  | (source, renderers) :: rest =>
      let views := renderer_views renderers in
      let hit := did_hit plot done source views in
      let done := (done ++ [SelectionSelect source views g final mode])%list in
      let done := if hit then (done ++ _emit_callback views g source mods)%list
                  else done in
      select_loop rest g final mode mods done
  end.

Fixpoint inspect_loop (sources : list (Source * list Renderer))
    (g : PointGeometry.t) (final : bool) (mode : Mode)
    (mods : option KeyModifiers.t) (done : list Action) : list Action :=
  match sources with
  | [] => done
  | (source, renderers) :: rest =>
      let views := renderer_views renderers in
      let hit := did_hit plot done source views in
      let done := (done ++ [SelectionInspect source views g final mode])%list in
      let done := if hit then (done ++ _emit_callback views g source mods)%list
                  else done in
      inspect_loop rest g final mode mods done
  end.

Definition _select (g : PointGeometry.t) (final : bool) (mode : Mode)
    (mods : option KeyModifiers.t) (done : list Action) : list Action :=
  (select_loop (_computed_renderers_by_data_source plot) g final mode mods done
     ++ [EmitSelectionEvent g; PushState])%list.

Definition _inspect (g : PointGeometry.t) (final : bool) (mode : Mode)
    (mods : option KeyModifiers.t) (done : list Action) : list Action :=
  inspect_loop (_computed_renderers_by_data_source plot) g final mode mods done.

Definition _handle_tap (ev : TapEvent) : list Action :=
  if negb (handle_event ev) then []
  else if negb (frame_contains plot (sx ev) (sy ev)) then []
  else
    let g := PointGeometry.mk (sx ev) (sy ev) in
    let mods := modifiers ev in
    let mode := _select_mode plot mods in
    match behavior model with
    | select => _select g true mode (Some mods) [ClearOtherOverlays]
    | inspect => _inspect g true mode (Some mods) [ClearOtherOverlays]
    end.

Definition _tap (ev : TapEvent) : list Action :=
  match gesture model with
  | tap => _handle_tap ev
  | doubletap => []
  end.

Definition _doubletap (ev : TapEvent) : list Action :=
  match gesture model with
  | doubletap => _handle_tap ev
  | tap => []
  end.

(** The callbacks executed in a trace. *)
Definition is_callback (a : Action) : bool :=
  match a with CallbackExecute _ _ _ _ => true | _ => false end.

Definition is_selection (a : Action) : bool :=
  match a with
  | SelectionSelect _ _ _ _ _ | SelectionInspect _ _ _ _ _ => true
  | _ => false
  end.

(** The actions that change the plot's selection state or history. *)
Definition is_state_change (a : Action) : bool :=
  match a with
  | EmitSelectionEvent _ | PushState => true
  | _ => false
  end.

(** The modifier keys agree with what the model wants. *)
Definition agrees (want : option bool) (got : bool) : bool :=
  match want with
  | Some b => Bool.eqb b got
  | None => true
  end.

End View.

Arguments ClearOtherOverlays {Source RendererView Mode Callback}.
Arguments SelectionSelect {Source RendererView Mode Callback}.
Arguments SelectionInspect {Source RendererView Mode Callback}.
Arguments CallbackExecute {Source RendererView Mode Callback}.
Arguments EmitSelectionEvent {Source RendererView Mode Callback}.
Arguments PushState {Source RendererView Mode Callback}.
Arguments behavior {Callback}.
Arguments gesture {Callback}.
Arguments wanted {Callback}.
Arguments callback {Callback}.
Arguments frame_contains {Source Renderer RendererView Mode Callback}.
Arguments _select_mode {Source Renderer RendererView Mode Callback}.
Arguments _computed_renderers_by_data_source {Source Renderer RendererView Mode Callback}.
Arguments renderer_view {Source Renderer RendererView Mode Callback}.
Arguments x_invert {Source Renderer RendererView Mode Callback}.
Arguments y_invert {Source Renderer RendererView Mode Callback}.
Arguments did_hit {Source Renderer RendererView Mode Callback}.
Arguments handle_event {Callback}.
Arguments renderer_views {Source Renderer RendererView Mode Callback}.
Arguments _emit_callback {Source Renderer RendererView Mode Callback}.
Arguments select_loop {Source Renderer RendererView Mode Callback}.
Arguments inspect_loop {Source Renderer RendererView Mode Callback}.
Arguments _select {Source Renderer RendererView Mode Callback}.
Arguments _inspect {Source Renderer RendererView Mode Callback}.
Arguments _handle_tap {Source Renderer RendererView Mode Callback}.
Arguments _tap {Source Renderer RendererView Mode Callback}.
Arguments _doubletap {Source Renderer RendererView Mode Callback}.
Arguments is_callback {Source RendererView Mode Callback}.
Arguments is_selection {Source RendererView Mode Callback}.
Arguments is_state_change {Source RendererView Mode Callback}.

End TapTool.

(** ** Vocabulary for the MathML styling *)

(** The last character of [s] exists and is not [x]. *)
Fixpoint ends_not (x : ascii) (s : string) : bool :=
  match s with
  | EmptyString => false
  | String c EmptyString => RegExp.not_char x c
  | String _ s' => ends_not x s'
  end.

(** [s] is empty or its last character is [x]. *)
Fixpoint ends_with_or_empty (x : ascii) (s : string) : bool :=
  match s with
  | EmptyString => true
  | String c EmptyString => Ascii.eqb c x
  | String _ s' => ends_with_or_empty x s'
  end.

(** What follows the lazy star inside the optional group of the opening
    pattern, and what follows the lazy class of the closing pattern. *)
Definition open_rest : RegExp.cont :=
  RegExp.matcher (RegExp.Class (RegExp.not_char "?"))
    (RegExp.matcher (RegExp.Lit ">") Some).

(** No match of the closing pattern starts inside [pre] when [tail] follows. *)
Fixpoint unmatched (pre tail : string) : Prop :=
  match pre with
  | EmptyString => True
  | String _ p =>
      RegExp.matcher RegExp.close_math Some (pre ++ tail) = None
      /\ unmatched p tail
  end.

Definition close_rest : RegExp.cont :=
  RegExp.matcher (RegExp.word "m" "ath")
    (RegExp.matcher (RegExp.Seq (RegExp.LazyStar RegExp.any) (RegExp.Lit ">")) Some).

(** * Properties *)

(** ** Facts about doubles

    Derived from the specification of the primitive operations
    ([FloatAxioms]). *)

Module NumFacts.






Lemma digits2_shift (k : nat) (m : positive) :
  Z.pos (digits2_pos (Nat.iter k xO m))
  = (Z.pos (digits2_pos m) + Z.of_nat k)%Z.
Proof.
  induction k as [| k IH].
  - cbn. lia.
  - change (Nat.iter (S k) xO m) with (xO (Nat.iter k xO m)).
    cbn [digits2_pos]. rewrite Pos2Z.inj_succ, IH. lia.
Qed.

Lemma shr_fexp_canonical (m : positive) (e : Z) :
  canonical_mantissa prec emax m e = true ->
  shr_fexp prec emax (Zpos m) e loc_Exact
  = ({| shr_m := Zpos m; shr_r := false; shr_s := false |}, e).
Proof.
  unfold canonical_mantissa, shr_fexp. intros Hc%Z.eqb_eq.
  cbn [Zdigits2]. rewrite Hc, Z.sub_diag. reflexivity.
Qed.

(** Shifting [m * 2^52] back by 52 binary places is exact. *)
Lemma shr_fexp_shifted (m : positive) (e : Z) :
  canonical_mantissa prec emax m e = true ->
  shr_fexp prec emax (Zpos (Nat.iter 52 xO m)) (e + -52) loc_Exact
  = ({| shr_m := Zpos m; shr_r := false; shr_s := false |}, e).
Proof.
  unfold canonical_mantissa, shr_fexp. intros Hc%Z.eqb_eq.
  cbn [Zdigits2]. rewrite digits2_shift.
  replace (Z.pos (digits2_pos m) + Z.of_nat 52 + (e + -52))%Z
    with (Z.pos (digits2_pos m) + e)%Z by lia.
  rewrite Hc. replace (e - (e + -52))%Z with 52%Z by lia.
  unfold shr.
  change (Nat.iter 52 xO m) with (Pos.mul 4503599627370496 m).
  cbn [Pos.mul iter_pos shr_record_of_loc shr_1 orb].
  f_equal. lia.
Qed.

Lemma SFmul_one (s : spec_float) :
  valid_binary s = true ->
  SF64mul s (S754_finite false 4503599627370496 (-52)) = s.
Proof.
  unfold SF64mul.
  destruct s as [sg | sg | | sg m e];
    cbn [SFmul SpecFloat.valid_binary]; intros Hv;
    rewrite ?xorb_false_r; try reflexivity.
  apply andb_prop in Hv. destruct Hv as [Hc Hb].
  unfold binary_round_aux.
  rewrite Pos.mul_comm.
  change (4503599627370496 * m)%positive with (Nat.iter 52 xO m).
  rewrite (shr_fexp_shifted m e Hc).
  cbn [shr_m loc_of_shr_record round_nearest_even].
  rewrite (shr_fexp_canonical m e Hc). cbn [shr_m].
  rewrite Hb. reflexivity.
Qed.

(** Multiplying a double by [1] returns it unchanged, NaN included. *)
Lemma mul_1_r (x : float) : (x * 1)%float = x.
Proof.
  apply Prim2SF_inj. rewrite FloatAxioms.mul_spec.
  change (Prim2SF 1) with (S754_finite false 4503599627370496 (-52)).
  apply SFmul_one, Prim2SF_valid.
Qed.

End NumFacts.

(** ** What a size computation can change *)

Ltac run_monad :=
  unfold bind, get, put, ret, raise, lift in *; cbn beta iota in *.

Lemma set_valign_same (b : MathBox) : set_valign (valign b) b = b.
Proof. destruct b; reflexivity. Qed.

Lemma set_valign_twice (u v : float) (b : MathBox) :
  set_valign u (set_valign v b) = set_valign u b.
Proof. reflexivity. Qed.

Lemma store_valign_frame (fm : FontMetrics.t) (v : option Length.t)
    (b : MathBox) :
  exists u, store_valign fm v b = (Ok tt, set_valign u b).
Proof.
  unfold store_valign.
  destruct v as [l |].
  - destruct (String.eqb (Length.unit l) "ex"); [eexists; reflexivity |].
    destruct (String.eqb (Length.unit l) "px"); [eexists; reflexivity |].
    exists (valign b). unfold ret. now rewrite set_valign_same.
  - exists (valign b). unfold ret. now rewrite set_valign_same.
Qed.

(** [svg_size] writes no field of the box other than [valign]. *)
Lemma svg_size_frame (H : Host) (P : MathJaxProvider) (b : MathBox)
    (r : result Size.t) (b' : MathBox) :
  svg_size H P b = (r, b') -> b' = set_valign (valign b') b.
Proof.
  unfold svg_size. destruct (MathJax P) as [mj |]; run_monad.
  - destruct (to_svg H P b) as [svg | e];
      [| intros [= <- <-]; now rewrite set_valign_same].
    destruct (getAttribute svg "height") as [h | e];
      [| intros [= <- <-]; now rewrite set_valign_same].
    destruct (getAttribute svg "width") as [w | e];
      [| intros [= <- <-]; now rewrite set_valign_same].
    destruct (getAttribute svg "style") as [[style |] | e];
      try (intros [= <- <-]; now rewrite set_valign_same).
    destruct (v_align_of H style) as [v | e];
      [| intros [= <- <-]; now rewrite set_valign_same].
    destruct (store_valign_frame (font_metrics H (font b)) v b) as [u ->].
    intros [= <- <-]. reflexivity.
  - intros [= <- <-]. now rewrite set_valign_same.
Qed.

Lemma svg_size_keeps_constraints (H : Host) (P : MathJaxProvider)
    (b : MathBox) (r : result Size.t) (b' : MathBox) :
  svg_size H P b = (r, b') ->
  width b' = width b /\ height b' = height b /\ font b' = font b
  /\ position b' = position b /\ _x_anchor b' = _x_anchor b
  /\ _y_anchor b' = _y_anchor b.
Proof.
  intros Hs. rewrite (svg_size_frame H P b r b' Hs). repeat split.
Qed.

Lemma percent_scale_not_percent (c : option Length.t) :
  is_percent c = false -> percent_scale c = 1%float.
Proof.
  unfold is_percent, percent_scale. destruct c as [l |]; [| reflexivity].
  intros ->. reflexivity.
Qed.

Lemma neq_of_eqb (x y : float) :
  (x =? y)%float = false -> Num.is_nan x = false -> x <> y.
Proof.
  intros Hxy Hx ->. unfold Num.is_nan in Hx. rewrite Hxy in Hx. discriminate.
Qed.

(** ** Size *)

(** C2: while the provider's status is [not_started] or [failed], [_size]
    returns exactly width 13 and height 13 and leaves the box as it is,
    whatever the formula text, font, color and declared constraints. *)
Theorem size_placeholder_when_not_loaded
    (H : Host) (P : MathJaxProvider) (b : MathBox) :
  provider_consistent P ->
  status P = not_started \/ status P = failed ->
  _size H P b = (Ok (Size.mk 13 13), b).
Proof.
  unfold provider_consistent, _size. intros Hc Hs.
  destruct (MathJax P) as [mj |]; [| reflexivity].
  rewrite Hc in Hs. destruct Hs; discriminate.
Qed.

Lemma size_placeholder_when_not_loaded_witness :
  _size Demo.host Demo.provider_failed
        (Demo.tex_box (Some (Length.mk 2 "%")) 1)
  = (Ok (Size.mk 13 13), Demo.tex_box (Some (Length.mk 2 "%")) 1).
Proof.
  apply (size_placeholder_when_not_loaded Demo.host Demo.provider_failed).
  - exact I.
  - right. reflexivity.
Defined.




Lemma size_frame (H : Host) (P : MathJaxProvider) (b : MathBox)
    (r : result Size.t) (b' : MathBox) :
  _size H P b = (r, b') -> b' = set_valign (valign b') b.
Proof.
  unfold _size. destruct (MathJax P) as [mj |]; run_monad.
  - destruct (svg_size H P b) as [[sz | e] b1] eqn:Hs;
      intros [= <- <-]; exact (svg_size_frame H P b _ _ Hs).
  - intros [= <- <-]. now rewrite set_valign_same.
Qed.

(** ** Position *)

(** C4: in [_computed_position], with [height] the height [_size] reports
    and [valign] as [_size] leaves it, the offset subtracted from [sy] is,
    for anchor top, [height - (-valign - descent) - metrics.height] when
    [metrics.height > height] and 0 otherwise; for anchor bottom,
    [height + descent + valign] when [metrics.height > height] and [height]
    otherwise.  With height 20, line height 30, valign 2 and descent 4 the
    top offset is -4. *)
Theorem computed_position_top_bottom
    (H : Host) (P : MathJaxProvider) (b b' : MathBox) (sz : Size.t) :
  _size H P b = (Ok sz, b') ->
  let h := Size.height sz in
  let m := font_metrics H (font b) in
  let sx := Position.sx (position b) in
  let sy := Position.sy (position b) in
  let x := (sx - x_offset (resolved_x_anchor b) (Size.width sz))%float in
  (resolved_y_anchor b = YTop ->
   _computed_position H P b
   = (Ok (x, (sy - (if (h <? FontMetrics.height m)%float
                    then h - (- valign b' - FontMetrics.descent m) - FontMetrics.height m
                    else 0))%float), b'))
  /\ (resolved_y_anchor b = YBottom ->
      _computed_position H P b
      = (Ok (x, (sy - (if (h <? FontMetrics.height m)%float
                       then h + FontMetrics.descent m + valign b'
                       else h))%float), b'))
  /\ (forall a xh : float,
         y_offset YTop 20 (FontMetrics.mk a 4 30 xh) 2 = (-4)%float).
Proof.
  intros Hs h m sx sy x.
  assert (Hb : b' = set_valign (valign b') b) by exact (size_frame H P b _ _ Hs).
  assert (Hrun : forall ya, resolved_y_anchor b = ya ->
            _computed_position H P b
            = (Ok (x, (sy - y_offset ya h m (valign b'))%float), b')).
  { intros ya Hya.
    assert (Hp : position b' = position b) by (rewrite Hb; reflexivity).
    assert (Hf : font b' = font b) by (rewrite Hb; reflexivity).
    assert (Hx : _x_anchor b' = _x_anchor b) by (rewrite Hb; reflexivity).
    assert (Hy : _y_anchor b' = _y_anchor b) by (rewrite Hb; reflexivity).
    unfold _computed_position. run_monad. rewrite Hs.
    unfold resolved_x_anchor, resolved_y_anchor in *.
    rewrite Hp, Hf, Hx, Hy, Hya. reflexivity. }
  repeat split.
  - intros Hya. exact (Hrun YTop Hya).
  - intros Hya. exact (Hrun YBottom Hya).
Qed.

Lemma computed_position_top_bottom_witness :
  let P := Demo.provider_with (Demo.engine Demo.svg_aligned) in
  let b := Demo.tex_box (Some (Length.mk (2 / 3) "%")) 1 in
  _size Demo.host P b = (Ok (Size.mk 18 20), set_valign 2 b)
  /\ _computed_position Demo.host P b = (Ok (100, 100 - (-4))%float, set_valign 2 b).
Proof.
  cbv zeta. split; [vm_compute; reflexivity |].
  refine (proj1 (computed_position_top_bottom Demo.host
                   (Demo.provider_with (Demo.engine Demo.svg_aligned))
                   (Demo.tex_box (Some (Length.mk (2 / 3) "%")) 1)
                   (set_valign 2 (Demo.tex_box (Some (Length.mk (2 / 3) "%")) 1))
                   (Size.mk 18 20) _) _);
    vm_compute; reflexivity.
Defined.

(** Replacing the vertical anchors does not affect the measured size. *)
Lemma to_svg_with_y (H : Host) (P : MathJaxProvider)
    (o : option YAnchor) (d : YAnchor) (b : MathBox) :
  to_svg H P (with_y o d b) = to_svg H P b.
Proof. destruct b; reflexivity. Qed.

Lemma with_y_set_valign (o : option YAnchor) (d : YAnchor) (u : float)
    (b : MathBox) :
  set_valign u (with_y o d b) = with_y o d (set_valign u b).
Proof. reflexivity. Qed.

Lemma store_valign_with_y (fm : FontMetrics.t) (v : option Length.t)
    (o : option YAnchor) (d : YAnchor) (b : MathBox) :
  store_valign fm v (with_y o d b)
  = (fst (store_valign fm v b), with_y o d (snd (store_valign fm v b))).
Proof.
  unfold store_valign. destruct v as [l |]; [| reflexivity].
  destruct (String.eqb (Length.unit l) "ex"); [reflexivity |].
  destruct (String.eqb (Length.unit l) "px"); reflexivity.
Qed.

Lemma svg_size_with_y (H : Host) (P : MathJaxProvider)
    (o : option YAnchor) (d : YAnchor) (b : MathBox) :
  svg_size H P (with_y o d b)
  = (fst (svg_size H P b), with_y o d (snd (svg_size H P b))).
Proof.
  unfold svg_size. destruct (MathJax P) as [mj |]; [| reflexivity].
  run_monad. rewrite to_svg_with_y.
  change (font (with_y o d b)) with (font b).
  destruct (to_svg H P b) as [svg | e]; [| reflexivity].
  destruct (getAttribute svg "height") as [h | e]; [| reflexivity].
  destruct (getAttribute svg "width") as [w | e]; [| reflexivity].
  destruct (getAttribute svg "style") as [[style |] | e]; try reflexivity.
  destruct (v_align_of H style) as [v | e]; [| reflexivity].
  rewrite store_valign_with_y.
  destruct (store_valign (font_metrics H (font b)) v b) as [[[] | e] b1];
    reflexivity.
Qed.

Lemma size_with_y (H : Host) (P : MathJaxProvider)
    (o : option YAnchor) (d : YAnchor) (b : MathBox) :
  _size H P (with_y o d b)
  = (fst (_size H P b), with_y o d (snd (_size H P b))).
Proof.
  unfold _size. destruct (MathJax P) as [mj |]; [| reflexivity].
  run_monad. rewrite svg_size_with_y.
  change (font (with_y o d b)) with (font b).
  destruct (svg_size H P b) as [[sz | e] b1]; reflexivity.
Qed.

(** C9: [_computed_position] returns the same result for the vertical
    anchor baseline as for center, whether the anchor is the position's
    override (it then prevails over any default [d] of the box) or the
    box's default.  Whenever [_size] reports a size, that result is
    [sx - x_offset] and [sy - 0.5 * height], with [height] the height
    [_size] reports, and the box is left as [_size] leaves it; when
    [_size] throws, both throw alike.  Both offsets are [0.5 * height]. *)
Theorem baseline_resolves_as_center
    (H : Host) (P : MathJaxProvider) (b : MathBox) (d : YAnchor) :
  fst (_computed_position H P (with_y (Some YBaseline) d b))
  = fst (_computed_position H P (with_y (Some YCenter) d b))
  /\ fst (_computed_position H P (with_y None YBaseline b))
     = fst (_computed_position H P (with_y None YCenter b))
  /\ (forall (sz : Size.t) (b' : MathBox),
         _size H P b = (Ok sz, b') ->
         let x := (Position.sx (position b)
                   - x_offset (resolved_x_anchor b) (Size.width sz))%float in
         let y := (Position.sy (position b) - 0.5 * Size.height sz)%float in
         _computed_position H P (with_y (Some YBaseline) d b)
         = (Ok (x, y), with_y (Some YBaseline) d b')
         /\ _computed_position H P (with_y (Some YCenter) d b)
            = (Ok (x, y), with_y (Some YCenter) d b')
         /\ _computed_position H P (with_y None YBaseline b)
            = (Ok (x, y), with_y None YBaseline b')
         /\ _computed_position H P (with_y None YCenter b)
            = (Ok (x, y), with_y None YCenter b'))
  /\ (forall (e : exn) (b' : MathBox),
         _size H P b = (Throw e, b') ->
         fst (_computed_position H P (with_y (Some YBaseline) d b)) = Throw e
         /\ fst (_computed_position H P (with_y None YBaseline b)) = Throw e)
  /\ (forall (h v : float) (m : FontMetrics.t),
         y_offset YBaseline h m v = (0.5 * h)%float
         /\ y_offset YCenter h m v = (0.5 * h)%float).
Proof.
  assert (Hgen : forall o1 d1 o2 d2,
            y_offset (resolved_y_anchor (with_y o1 d1 b)) = y_offset YBaseline ->
            y_offset (resolved_y_anchor (with_y o2 d2 b)) = y_offset YCenter ->
            fst (_computed_position H P (with_y o1 d1 b))
            = fst (_computed_position H P (with_y o2 d2 b))).
  { intros o1 d1 o2 d2 H1 H2.
    unfold _computed_position. run_monad. rewrite !size_with_y.
    destruct (_size H P b) as [[sz | e] b1] eqn:Hs; cbn [fst snd]; [| reflexivity].
    assert (Hr : forall o' d',
               resolved_y_anchor (with_y o' d' b1)
               = resolved_y_anchor (with_y o' d' b)).
    { intros o' d'. rewrite (size_frame H P b _ _ Hs). reflexivity. }
    rewrite !Hr, H1, H2. reflexivity. }
  assert (Hval : forall o1 d1 sz b',
            _size H P b = (Ok sz, b') ->
            (forall h m v,
                y_offset (resolved_y_anchor (with_y o1 d1 b)) h m v
                = (0.5 * h)%float) ->
            _computed_position H P (with_y o1 d1 b)
            = (Ok ((Position.sx (position b)
                    - x_offset (resolved_x_anchor b) (Size.width sz))%float,
                   (Position.sy (position b) - 0.5 * Size.height sz)%float),
               with_y o1 d1 b')).
  { intros o1 d1 sz b' Hs Hy.
    assert (Hb : b' = set_valign (valign b') b) by exact (size_frame H P b _ _ Hs).
    assert (Hp : position b' = position b) by (rewrite Hb; reflexivity).
    assert (Hx : _x_anchor b' = _x_anchor b) by (rewrite Hb; reflexivity).
    unfold _computed_position. run_monad. rewrite size_with_y, Hs.
    cbn [fst snd].
    assert (Hr : resolved_y_anchor (with_y o1 d1 b')
                 = resolved_y_anchor (with_y o1 d1 b)) by reflexivity.
    assert (Hrx : resolved_x_anchor (with_y o1 d1 b') = resolved_x_anchor b).
    { unfold resolved_x_anchor. cbn. rewrite Hp, Hx. reflexivity. }
    rewrite Hr, Hy, Hrx. cbn. rewrite Hp. reflexivity. }
  split; [apply Hgen; reflexivity |].
  split; [apply Hgen; reflexivity |].
  split.
  { intros sz b' Hs x y.
    repeat split; apply Hval; try exact Hs; reflexivity. }
  split; [| repeat split].
  intros e b' Hs.
  split; unfold _computed_position; run_monad; rewrite size_with_y, Hs;
    reflexivity.
Qed.

Lemma baseline_resolves_as_center_witness :
  let P := Demo.provider_with (Demo.engine Demo.svg_plain) in
  let b := Demo.tex_box None 1 in
  _size Demo.host P b = (Ok (Size.mk 18 30), b)
  /\ _computed_position Demo.host P (with_y (Some YBaseline) YTop b)
     = (Ok (100, 85)%float, with_y (Some YBaseline) YTop b)
  /\ _computed_position Demo.host P (with_y None YCenter b)
     = (Ok (100, 85)%float, with_y None YCenter b).
Proof.
  cbv zeta. split; [vm_compute; reflexivity |].
  pose proof (proj1 (proj2 (proj2
                (baseline_resolves_as_center Demo.host
                   (Demo.provider_with (Demo.engine Demo.svg_plain))
                   (Demo.tex_box None 1) YTop)))
                (Size.mk 18 30) (Demo.tex_box None 1)) as Hw.
  cbv zeta in Hw.
  assert (Hs : _size Demo.host (Demo.provider_with (Demo.engine Demo.svg_plain))
                 (Demo.tex_box None 1)
               = (Ok (Size.mk 18 30), Demo.tex_box None 1))
    by (vm_compute; reflexivity).
  destruct (Hw Hs) as (H1 & _ & _ & H4).
  split; [rewrite H1 | rewrite H4]; vm_compute; reflexivity.
Defined.

(** ** The vertical correction is only ever overwritten *)

(** C10: when the vector graphic has no style attribute, or its style has no
    [vertical-align] length with unit [ex] or [px], [svg_size] leaves the box
    as it was, [valign] included, whether it returns or throws; the position
    computed next is then corrected by that earlier [valign]. *)
Theorem svg_size_keeps_valign
    (H : Host) (P : MathJaxProvider) (b b' : MathBox) (r : result Size.t) :
  svg_size H P b = (r, b') ->
  (forall svg, to_svg H P b = Ok svg -> sets_valign H svg = false) ->
  b' = b
  /\ forall sz b1,
       _size H P b = (Ok sz, b1) ->
       _computed_position H P b
       = (Ok ((Position.sx (position b)
               - x_offset (resolved_x_anchor b) (Size.width sz))%float,
              (Position.sy (position b)
               - y_offset (resolved_y_anchor b) (Size.height sz)
                          (font_metrics H (font b)) (valign b))%float), b).
Proof.
  intros Hs Hno.
  assert (Hsame : forall r0 b0, svg_size H P b = (r0, b0) -> b0 = b).
  { clear Hs r b'. intros r b'. unfold svg_size.
    destruct (MathJax P) as [mj |]; run_monad; [| now intros [= <- <-]].
    destruct (to_svg H P b) as [svg | e] eqn:Hsvg; [| now intros [= <- <-]].
    specialize (Hno svg eq_refl).
    destruct svg as [el |]; cbn [getAttribute]; [| now intros [= <- <-]].
    cbn [sets_valign] in Hno.
    destruct (assoc "style" (attributes el)) as [style |];
      [| now intros [= <- <-]].
    destruct (v_align_of H style) as [[l |] | e];
      try (now intros [= <- <-]).
    apply orb_false_elim in Hno. destruct Hno as [Hex Hpx].
    unfold store_valign. rewrite Hex, Hpx. now intros [= <- <-]. }
  split; [exact (Hsame r b' Hs) |].
  intros sz b1 Hsz.
  assert (Hb1 : b1 = b).
  { revert Hsz. unfold _size.
    destruct (MathJax P) as [mj |]; run_monad; [| now intros [= <- <-]].
    destruct (svg_size H P b) as [[sz0 | e] b0] eqn:Hs0; [| discriminate].
    intros [= <- <-]. exact (Hsame _ _ eq_refl). }
  subst b1. unfold _computed_position. run_monad. rewrite Hsz. reflexivity.
Qed.

Lemma svg_size_keeps_valign_witness :
  let P := Demo.provider_with (Demo.engine Demo.svg_points) in
  let b := set_valign 7 (Demo.tex_box None 1) in
  svg_size Demo.host P b = (Ok (Size.mk 18 12), b)
  /\ valign (snd (_computed_position Demo.host P b)) = 7%float.
Proof.
  cbv zeta.
  assert (Hrun : svg_size Demo.host
                   (Demo.provider_with (Demo.engine Demo.svg_points))
                   (set_valign 7 (Demo.tex_box None 1))
                 = (Ok (Size.mk 18 12), set_valign 7 (Demo.tex_box None 1)))
    by (vm_compute; reflexivity).
  split; [exact Hrun |].
  destruct (svg_size_keeps_valign Demo.host _ _ _ _ Hrun) as [_ Hpos].
  - intros svg Hsvg. vm_compute in Hsvg. injection Hsvg as <-.
    vm_compute. reflexivity.
  - rewrite (Hpos (Size.mk 18 30) (set_valign 7 (Demo.tex_box None 1)));
      [reflexivity | vm_compute; reflexivity].
Defined.

(** ** Provider loading *)

(** C5, as stated, fails: in status [loading] the method returns at once
    instead of waiting for the fetch in flight, so its promise resolves
    while the provider is still loading. *)
Lemma load_provider_while_loading_counterexample :
  load_provider Demo.provider_loading = Return tt
  /\ load_provider Demo.provider_loading
     <> load_as_specified Demo.provider_loading
  /\ (forall o : Outcome,
         status (snd (fst (run_async o (load_provider Demo.provider_loading)
                                     Demo.provider_loading)))
         = loading
         /\ status (snd (fst (run_async o (load_as_specified Demo.provider_loading)
                                        Demo.provider_loading)))
            <> loading).
Proof.
  split; [reflexivity |]. split; [discriminate |].
  intros o. split; [reflexivity |]. destruct o; discriminate.
Qed.

(** C5, amended: [load_provider] starts the provider's fetch and waits for
    it exactly when the status is [not_started]; in status [loading],
    [loaded] and [failed] it is a no-op that returns at once, neither
    starting a fetch nor waiting for one in flight. *)
Theorem load_provider_fetches_only_when_not_started
    (p : MathJaxProvider) (o : Outcome) :
  load_provider p
  = match status p with
    | not_started => AwaitFetch (Return tt)
    | loading | loaded | failed => Return tt
    end
  /\ run_async o (load_provider p) p
     = match status p with
       | not_started => (tt, settle o, 1)
       | loading | loaded | failed => (tt, p, 0)
       end.
Proof.
  unfold load_provider. destruct (status p); split; reflexivity.
Qed.

(** ** Style assignment *)

(** C6, as stated, fails: with font size 2em, base size 13 and a font size
    scale of 0.5 the derived size is 13px, while value times base is 26.
    With a base size of zero the size is not converted and stays 2em. *)
Lemma em_to_px_counterexample :
  let b := Demo.tex_box None 0.5 in
  parse_css_font_size Demo.host (Visuals.font_size Demo.style)
  = Some (Length.mk 2 "em")
  /\ _base_font_size b = 13%float
  /\ derived_font_size b (Length.mk 2 "em") = Length.mk 13 "px"
  /\ font (set_visuals Demo.host Demo.style b) = "normal 13px sans"
  /\ (2 * 13)%float = 26%float
  /\ 13%float <> 26%float
  /\ derived_font_size Demo.baseless_box (Length.mk 2 "em") = Length.mk 2 "em".
Proof.
  cbv zeta. repeat split; try (vm_compute; reflexivity).
  apply neq_of_eqb; vm_compute; reflexivity.
Qed.

(** C6, amended: for a font size that parses with unit [em] and a base size
    that is neither zero nor NaN, the derived size is in pixels and equals
    [value * font_size_scale * base]; it is [value * base] when the scale
    factor is 1. *)
Theorem em_font_size_in_px
    (H : Host) (b : MathBox) (v : Visuals.t) (res : Length.t) :
  parse_css_font_size H (Visuals.font_size v) = Some res ->
  Length.unit res = "em" ->
  Num.truthy (_base_font_size b) = true ->
  let px := (Length.value res * font_size_scale b * _base_font_size b)%float in
  derived_font_size b res = Length.mk px "px"
  /\ font (set_visuals H v b)
     = Visuals.font_style v ++ " " ++ (Number_toString H px ++ "px")
         ++ " " ++ Visuals.font v
  /\ (font_size_scale b = 1%float ->
      derived_font_size b res
      = Length.mk (Length.value res * _base_font_size b)%float "px").
Proof.
  intros Hparse Hunit Hbase px.
  assert (Hd : derived_font_size b res = Length.mk px "px").
  { unfold derived_font_size. rewrite Hunit, Hbase. reflexivity. }
  repeat split.
  - exact Hd.
  - unfold set_visuals, derived_size_string. cbn [font].
    rewrite Hparse, Hd. reflexivity.
  - intros Hone. rewrite Hd. unfold px.
    rewrite Hone, NumFacts.mul_1_r. reflexivity.
Qed.

Lemma em_font_size_in_px_witness :
  font (set_visuals Demo.host Demo.style (Demo.tex_box None 1))
  = "normal 26px sans".
Proof.
  refine (proj1 (proj2 (em_font_size_in_px Demo.host (Demo.tex_box None 1)
                          Demo.style (Length.mk 2 "em") _ _ _)));
    vm_compute; reflexivity.
Defined.

(** ** Dialect variants *)

(** When either pattern finds no match, the MathML styling returns the
    trimmed formula. *)
Lemma mathml_unmatched_is_trimmed (H : Host) (b : MathBox) :
  (RegExp.exec RegExp.open_math (Str.trim (text b)) = None ->
   MathMLBox_styled_formula H b = Str.trim (text b))
  /\ (forall m0,
         RegExp.exec RegExp.open_math (Str.trim (text b)) = Some m0 ->
         RegExp.exec RegExp.close_math
           (insert_text_on_position (Str.trim (text b))
              (Str.indexOf (Str.trim (text b)) m0 + Str.len m0)%Z
              (mstyle_open H b)) = None ->
         MathMLBox_styled_formula H b = Str.trim (text b)).
Proof.
  unfold MathMLBox_styled_formula. split.
  - intros ->. reflexivity.
  - intros m0 -> ->. reflexivity.
Qed.

Lemma matcher_word_prefix (w : string) :
  forall (c : ascii) (k : RegExp.cont) (s r : string),
    RegExp.matcher (RegExp.word c w) k s = Some r ->
    String.prefix (String c w) s = true.
Proof.
  induction w as [| d w IH]; intros c k s r; cbn [RegExp.word RegExp.matcher].
  - destruct s as [| a s']; [discriminate |].
    destruct (Ascii.eqb_spec c a) as [<- |]; [| discriminate].
    intros _. cbn. destruct (ascii_dec c c); [| contradiction].
    destruct s'; reflexivity.
  - destruct s as [| a s']; [discriminate |].
    destruct (Ascii.eqb_spec c a) as [<- |]; [| discriminate].
    intros Hm. apply IH in Hm.
    change (String.prefix (String c (String d w)) (String c s'))
      with (if ascii_dec c c then String.prefix (String d w) s' else false).
    destruct (ascii_dec c c); [exact Hm | contradiction].
Qed.

Lemma indexOf_from_range (sub s : string) (i : Z) :
  (0 <= i)%Z ->
  Str.indexOf_from sub s i = (-1)%Z \/ (i <= Str.indexOf_from sub s i)%Z.
Proof.
  revert i. induction s as [| a s IH]; intros i Hi; cbn [Str.indexOf_from].
  - destruct (String.prefix sub EmptyString); [right; lia | left; reflexivity].
  - destruct (String.prefix sub (String a s)); [right; lia |].
    destruct (IH (i + 1)%Z ltac:(lia)) as [-> | Hle]; [left; reflexivity | right; lia].
Qed.

Lemma exec_needs_word (w : string) (c : ascii) (rest : RegExp.regex) (s : string) :
  forall i, (0 <= i)%Z ->
    Str.indexOf_from (String c w) s i = (-1)%Z ->
    RegExp.exec (RegExp.Seq (RegExp.word c w) rest) s = None.
Proof.
  induction s as [| a s IH]; intros i Hi Hidx;
    cbn [RegExp.exec]; cbn [Str.indexOf_from] in Hidx.
  - destruct (RegExp.matcher _ Some EmptyString) as [r |] eqn:Hm; [| reflexivity].
    cbn [RegExp.matcher] in Hm. apply matcher_word_prefix in Hm.
    rewrite Hm in Hidx. lia.
  - destruct (String.prefix (String c w) (String a s)) eqn:Hp; [lia |].
    destruct (RegExp.matcher _ Some (String a s)) as [r |] eqn:Hm.
    + cbn [RegExp.matcher] in Hm. apply matcher_word_prefix in Hm. congruence.
    + apply (IH (i + 1)%Z); [lia | exact Hidx].
Qed.

(** X15: a formula that does not contain [<math] comes back trimmed. *)
Lemma mathml_without_math_tag_is_trimmed (H : Host) (b : MathBox) :
  Str.includes (Str.trim (text b)) "<math" = false ->
  MathMLBox_styled_formula H b = Str.trim (text b).
Proof.
  unfold Str.includes, Str.indexOf. intros Hinc%Z.leb_gt.
  apply (proj1 (mathml_unmatched_is_trimmed H b)).
  apply (exec_needs_word "math" "<" _ _ 0%Z); [lia |].
  destruct (indexOf_from_range "<math" (Str.trim (text b)) 0%Z) as [-> | Hle];
    [lia | reflexivity | lia].
Qed.

(** C7 at the formula of the claim: the opening pattern takes the whole of
    [<math>X</math>] as its match, so the opening [mstyle] tag lands after
    the closing [math] tag and [</mstyle>] before it. *)
Theorem mathml_styling_of_bare_math :
  let b := Demo.mathml_box "<math>X</math>" in
  let mstyle := "<mstyle displaystyle=" ++ Str.dquote ++ "true" ++ Str.dquote
                  ++ " mathcolor=" ++ Str.dquote ++ "#ff0000" ++ Str.dquote
                  ++ " >" in
  RegExp.exec RegExp.open_math "<math>X</math>" = Some "<math>X</math>"
  /\ MathMLBox_styled_formula Demo.host b
     = "<math>X</mstyle></math>" ++ mstyle
  /\ MathMLBox_styled_formula Demo.host b
     <> "<math>" ++ mstyle ++ "X</mstyle></math>".
Proof.
  cbv zeta. repeat split; try (vm_compute; reflexivity).
  vm_compute. discriminate.
Qed.

(** With attributes on the opening tag the same formula is styled as the
    claim describes. *)
Lemma mathml_styling_of_math_with_attribute :
  let mstyle := "<mstyle displaystyle=" ++ Str.dquote ++ "true" ++ Str.dquote
                  ++ " mathcolor=" ++ Str.dquote ++ "#ff0000" ++ Str.dquote
                  ++ " >" in
  MathMLBox_styled_formula Demo.host
    (Demo.mathml_box " <math display='block'>X</math> ")
  = "<math display='block'>" ++ mstyle ++ "X</mstyle></math>".
Proof. vm_compute. reflexivity. Qed.

(** C8 at a failing conversion and at a malformed vector graphic, with the
    engine loaded.  While the provider is not loaded, [to_svg] throws its
    explicit error for every dialect.  With the engine loaded that error is
    out of reach, and yet [paint] throws to its caller: the exception of
    the conversion, or the TypeError of [svg_size] on a style declaration
    without a colon, passes through [_size] and [_computed_position], which
    [paint] runs outside its guarded block.  A failure other than the
    explicit error of [to_svg] thus reaches the caller. *)
Theorem paint_surfaces_failure_past_to_svg :
  let P := Demo.provider_with Demo.engine_rejecting in
  let Q := Demo.provider_with (Demo.engine Demo.svg_malformed) in
  let N := Demo.provider_loading in
  let b := Demo.tex_box None 1 in
  let w := {| box := b; ctx := []; console := [] |} in
  (MathJax N = None
   /\ TeXBox_to_svg Demo.host N b
      = Throw (Error "Please load MathJax before calling to_svg()")
   /\ MathMLBox_to_svg Demo.host N b
      = Throw (Error "Please load MathJax before calling to_svg()")
   /\ AsciiBox_to_svg Demo.host N b
      = Throw (Error "Please load MathJax before calling to_svg()"))
  /\ (status P = loaded
      /\ to_svg Demo.host P b = Throw (Foreign "conversion failed")
      /\ fst (_size Demo.host P b) = Throw (Foreign "conversion failed")
      /\ fst (_computed_position Demo.host P b)
         = Throw (Foreign "conversion failed")
      /\ fst (paint Demo.host P w) = Throw (Foreign "conversion failed")
      /\ console (snd (paint Demo.host P w)) = []
      /\ ctx (snd (paint Demo.host P w)) = [Save])
  /\ (status Q = loaded
      /\ to_svg Demo.host Q b = Ok (Some Demo.svg_malformed)
      /\ fst (_size Demo.host Q b)
         = Throw (TypeError "Cannot read properties of undefined (reading 'trim')")
      /\ fst (paint Demo.host Q w)
         = Throw (TypeError "Cannot read properties of undefined (reading 'trim')")).
Proof. cbv zeta. repeat split; vm_compute; reflexivity. Qed.

(** Whatever the dialect, the formula and the host, [to_svg] called while
    the provider is not loaded throws the explicit error at once, without
    converting, retrying or waiting. *)
Theorem to_svg_requires_loaded_provider
    (H : Host) (P : MathJaxProvider) (b : MathBox) :
  provider_consistent P ->
  status P <> loaded ->
  TeXBox_to_svg H P b
  = Throw (Error "Please load MathJax before calling to_svg()")
  /\ MathMLBox_to_svg H P b
     = Throw (Error "Please load MathJax before calling to_svg()")
  /\ AsciiBox_to_svg H P b
     = Throw (Error "Please load MathJax before calling to_svg()")
  /\ to_svg H P b
     = Throw (Error "Please load MathJax before calling to_svg()").
Proof.
  unfold provider_consistent, to_svg, TeXBox_to_svg, MathMLBox_to_svg,
    AsciiBox_to_svg.
  intros Hc Hs. destruct (MathJax P) as [mj |]; [contradiction |].
  repeat split. destruct (kind b); reflexivity.
Qed.

Lemma to_svg_requires_loaded_provider_witness :
  to_svg Demo.host Demo.provider_loading (Demo.mathml_box "<math>X</math>")
  = Throw (Error "Please load MathJax before calling to_svg()").
Proof.
  refine (proj2 (proj2 (proj2
            (to_svg_requires_loaded_provider Demo.host Demo.provider_loading
               (Demo.mathml_box "<math>X</math>") _ _)))).
  - exact I.
  - discriminate.
Defined.

(** ** Paint *)

(** Once the position has been computed, [paint] completes normally: the
    commands of the compositor, or on any throw of the guarded block the
    logged error and the plain text at [(x, y + ascent)], sit between the
    [Save] issued at entry and a single closing [Restore]. *)
Lemma paint_after_position (H : Host) (P : MathJaxProvider) (w : World)
    (x y : float) (b1 : MathBox) :
  _computed_position H P (box w) = (Ok (x, y), b1) ->
  let w1 := {| box := b1;
               ctx := (ctx w ++ [Save])
                        ++ rotation (Position.sx (position (box w)))
                                    (Position.sy (position (box w)))
                                    (angle (box w));
               console := console w |} in
  paint H P w
  = match composite H P x y w1 with
    | (Ok _, w2) =>
        (Ok tt, {| box := box w2; ctx := ctx w2 ++ [Restore];
                   console := console w2 |})
    | (Throw e, w2) =>
        (Ok tt,
         {| box := box w2;
            ctx := (ctx w2
                      ++ [ SetFillStyle (color (box w2));
                           SetFont (font (box w2));
                           SetTextAlign "left";
                           SetTextBaseline "alphabetic";
                           FillText (text (box w2)) x
                             (y + FontMetrics.ascent (font_metrics H (font (box w2)))) ])
                     ++ [Restore];
            console := console w2 ++ [e] |})
    end.
Proof.
  intros Hpos w1. unfold paint, on_box, issue, try_catch, fallback, console_error.
  run_monad. cbn [box ctx console]. rewrite Hpos. cbn [box ctx console].
  subst w1.
  destruct (composite H P x y _) as [[[] | e] w2]; reflexivity.
Qed.

(** Without an engine the guarded block throws at once and the fallback
    text is drawn against the placeholder size. *)
Lemma paint_without_engine (H : Host) (P : MathJaxProvider) (w : World) :
  MathJax P = None ->
  let b := box w in
  let x := (Position.sx (position b) - x_offset (resolved_x_anchor b) 13)%float in
  let y := (Position.sy (position b)
            - y_offset (resolved_y_anchor b) 13 (font_metrics H (font b)) (valign b))%float in
  paint H P w
  = (Ok tt,
     {| box := b;
        ctx := (((ctx w ++ [Save])
                   ++ rotation (Position.sx (position b)) (Position.sy (position b)) (angle b))
                  ++ [ SetFillStyle (color b); SetFont (font b);
                       SetTextAlign "left"; SetTextBaseline "alphabetic";
                       FillText (text b) x
                         (y + FontMetrics.ascent (font_metrics H (font b))) ])
                 ++ [Restore];
        console := console w
                     ++ [TypeError "Cannot read properties of null (reading 'MathJaxCanvas')"] |}).
Proof.
  intros Hmj b x y.
  assert (Hpos : _computed_position H P (box w) = (Ok (x, y), b)).
  { unfold _computed_position, _size. rewrite Hmj. reflexivity. }
  rewrite (paint_after_position H P w x y b Hpos).
  unfold composite. rewrite Hmj. reflexivity.
Qed.

(** C1 at a malformed vector graphic and at a failing conversion: the size
    computation behind [_computed_position] runs before the guarded block,
    so [paint] throws, draws no text and never restores the saved state. *)
Theorem paint_throws_when_measuring_throws :
  let w := {| box := Demo.tex_box None 1; ctx := []; console := [] |} in
  let after := {| box := Demo.tex_box None 1; ctx := [Save]; console := [] |} in
  paint Demo.host (Demo.provider_with (Demo.engine Demo.svg_malformed)) w
  = (Throw (TypeError "Cannot read properties of undefined (reading 'trim')"), after)
  /\ paint Demo.host (Demo.provider_with Demo.engine_rejecting) w
     = (Throw (Foreign "conversion failed"), after)
  /\ saves (ctx after) = 1
  /\ restores (ctx after) = 0.
Proof. cbv zeta. repeat split; vm_compute; reflexivity. Qed.

(** * Further properties *)

(** ** More facts about doubles *)

Module NumOrder.

Lemma SFcompare_antisym (s t : spec_float) :
  SFcompare t s = option_map CompOpp (SFcompare s t).
Proof.
  destruct s as [a | a | | a m e], t as [b | b | | b n f]; cbn;
    try reflexivity; try (destruct a; reflexivity); try (destruct b; reflexivity);
    try (destruct a, b; reflexivity).
  destruct a, b; try reflexivity;
    rewrite (Z.compare_antisym e f); destruct (e ?= f)%Z; cbn; try reflexivity;
    change (Pos.compare_cont Eq n m) with (Pos.compare n m);
    change (Pos.compare_cont Eq m n) with (Pos.compare m n);
    rewrite (Pos.compare_antisym m n);
    destruct (Pos.compare m n); reflexivity.
Qed.

(** Subtracting [+0] returns the double unchanged. *)
Lemma sub_0_r (x : float) : (x - 0)%float = x.
Proof.
  apply Prim2SF_inj. rewrite FloatAxioms.sub_spec.
  change (Prim2SF 0) with (S754_zero false).
  destruct (Prim2SF x) as [[] | [] | | [] m e]; reflexivity.
Qed.

Lemma ltb_irrefl (x : float) : (x <? x)%float = false.
Proof.
  rewrite FloatAxioms.ltb_spec. unfold SFltb.
  pose proof (SFcompare_antisym (Prim2SF x) (Prim2SF x)) as Ha.
  destruct (SFcompare (Prim2SF x) (Prim2SF x)) as [[] |]; try reflexivity.
  discriminate.
Qed.

Lemma nan_ltb (x : float) : (nan <? x)%float = false.
Proof.
  rewrite FloatAxioms.ltb_spec. change (Prim2SF nan) with S754_nan. reflexivity.
Qed.

Lemma leb_refl (x : float) : Num.is_nan x = false -> (x <=? x)%float = true.
Proof.
  unfold Num.is_nan. rewrite FloatAxioms.eqb_spec, FloatAxioms.leb_spec.
  unfold SFeqb, SFleb.
  destruct (SFcompare (Prim2SF x) (Prim2SF x)) as [[] |]; cbn; congruence.
Qed.

Lemma ltb_leb (x y : float) : (x <? y)%float = true -> (x <=? y)%float = true.
Proof.
  rewrite FloatAxioms.ltb_spec, FloatAxioms.leb_spec. unfold SFltb, SFleb.
  destruct (SFcompare (Prim2SF x) (Prim2SF y)) as [[] |]; congruence.
Qed.

Lemma not_ltb_leb (x y : float) :
  Num.is_nan x = false -> Num.is_nan y = false ->
  (x <? y)%float = false -> (y <=? x)%float = true.
Proof.
  unfold Num.is_nan.
  rewrite !FloatAxioms.eqb_spec, FloatAxioms.ltb_spec, FloatAxioms.leb_spec.
  unfold SFeqb, SFltb, SFleb.
  rewrite (SFcompare_antisym (Prim2SF x) (Prim2SF y)).
  destruct (Prim2SF x) as [a | a | | a m e], (Prim2SF y) as [b | b | | b n f];
    cbn; try discriminate; intros _ _;
    try (destruct a; cbn; congruence); try (destruct b; cbn; congruence);
    try (destruct a, b; cbn; congruence).
  destruct a, b; cbn; try congruence;
    destruct (e ?= f)%Z; cbn; try congruence;
    destruct (Pos.compare_cont Eq m n); cbn; congruence.
Qed.

(** [Math.max(a, b)] is never below [b], whatever the arguments. *)
Lemma max_ltb_r (a b : float) : (Num.max a b <? b)%float = false.
Proof.
  unfold Num.max.
  destruct (Num.is_nan a || Num.is_nan b); [apply nan_ltb |].
  destruct (Num.is_neg_zero a && Num.is_pos_zero b); [apply ltb_irrefl |].
  destruct (a <? b)%float eqn:Hlt; [apply ltb_irrefl | exact Hlt].
Qed.

Lemma max_leb_r (a b : float) :
  Num.is_nan a = false -> Num.is_nan b = false ->
  (b <=? Num.max a b)%float = true.
Proof.
  intros Ha Hb. unfold Num.max. rewrite Ha, Hb. cbn [orb].
  destruct (Num.is_neg_zero a && Num.is_pos_zero b); [now apply leb_refl |].
  destruct (a <? b)%float eqn:Hlt; [now apply leb_refl | now apply not_ltb_leb].
Qed.

End NumOrder.

(** ** Measuring twice *)

Lemma to_svg_set_valign (H : Host) (P : MathJaxProvider) (u : float)
    (b : MathBox) :
  to_svg H P (set_valign u b) = to_svg H P b.
Proof. destruct b; reflexivity. Qed.

Lemma store_valign_settled (fm : FontMetrics.t) (v : option Length.t)
    (b b' : MathBox) (r : result unit) :
  store_valign fm v b = (r, b') -> store_valign fm v b' = (r, b').
Proof.
  unfold store_valign. destruct v as [l |]; [| now intros [= <- <-]].
  destruct (String.eqb (Length.unit l) "ex"); [now intros [= <- <-] |].
  destruct (String.eqb (Length.unit l) "px"); now intros [= <- <-].
Qed.

Lemma svg_size_settled (H : Host) (P : MathJaxProvider) (b b' : MathBox)
    (r : result Size.t) :
  svg_size H P b = (r, b') -> svg_size H P b' = (r, b').
Proof.
  intros Hs.
  assert (Hb : exists u, b' = set_valign u b)
    by (eexists; exact (svg_size_frame H P b r b' Hs)).
  destruct Hb as [u ->]. revert Hs. unfold svg_size.
  destruct (MathJax P) as [mj |]; run_monad; [| now intros [= <- _]].
  rewrite to_svg_set_valign. cbn [font set_valign].
  destruct (to_svg H P b) as [svg | e]; [| now intros [= <- _]].
  destruct (getAttribute svg "height") as [h | e]; [| now intros [= <- _]].
  destruct (getAttribute svg "width") as [w | e]; [| now intros [= <- _]].
  destruct (getAttribute svg "style") as [[style |] | e];
    try (now intros [= <- _]).
  destruct (v_align_of H style) as [v | e]; [| now intros [= <- _]].
  destruct (store_valign (font_metrics H (font b)) v b) as [r0 b0] eqn:Hst.
  intros Hs.
  assert (Hb0 : b0 = set_valign u b) by (destruct r0; congruence).
  subst b0. rewrite (store_valign_settled _ _ _ _ _ Hst). exact Hs.
Qed.

Lemma size_again (H : Host) (P : MathJaxProvider) (b b' : MathBox)
    (r : result Size.t) :
  _size H P b = (r, b') -> _size H P b' = (r, b').
Proof.
  unfold _size.
  destruct (MathJax P) as [mj |]; run_monad; [| now intros [= <- <-]].
  destruct (svg_size H P b) as [r0 b0] eqn:Hs0.
  pose proof (svg_size_settled H P b b0 r0 Hs0) as Hs1.
  pose proof (svg_size_frame H P b r0 b0 Hs0) as Hb.
  assert (Hf : font b0 = font b) by (rewrite Hb; reflexivity).
  destruct r0 as [sz0 | e0]; intros [= <- <-]; rewrite Hs1; [| reflexivity].
  rewrite Hf. reflexivity.
Qed.

(** X1: a second size computation on the box left by the first returns the
    same size (or the same exception) and changes nothing more. *)
Theorem size_settled (H : Host) (P : MathJaxProvider) (b : MathBox) :
  _size H P (snd (_size H P b)) = _size H P b.
Proof.
  destruct (_size H P b) as [r b'] eqn:Hs. cbn [snd].
  exact (size_again H P b b' r Hs).
Qed.

Lemma computed_position_of_size (H : Host) (P : MathJaxProvider)
    (b b' : MathBox) (sz : Size.t) :
  _size H P b = (Ok sz, b') ->
  _computed_position H P b
  = (Ok ((Position.sx (position b)
          - x_offset (resolved_x_anchor b) (Size.width sz))%float,
         (Position.sy (position b)
          - y_offset (resolved_y_anchor b) (Size.height sz)
                     (font_metrics H (font b)) (valign b'))%float), b').
Proof.
  intros Hs. pose proof (size_frame H P b _ _ Hs) as Hb.
  unfold _computed_position. run_monad. rewrite Hs.
  unfold resolved_x_anchor, resolved_y_anchor.
  replace (position b') with (position b) by (rewrite Hb; reflexivity).
  replace (font b') with (font b) by (rewrite Hb; reflexivity).
  replace (_x_anchor b') with (_x_anchor b) by (rewrite Hb; reflexivity).
  replace (_y_anchor b') with (_y_anchor b) by (rewrite Hb; reflexivity).
  reflexivity.
Qed.

Lemma computed_position_throws_with_size (H : Host) (P : MathJaxProvider)
    (b b' : MathBox) (e : exn) :
  _size H P b = (Throw e, b') -> _computed_position H P b = (Throw e, b').
Proof.
  intros Hs. unfold _computed_position. run_monad. rewrite Hs. reflexivity.
Qed.

(** X2: [_rect] builds its box from one consistent measurement: the size it
    passes is the size [_size] returns, the origin is the position computed
    from that same size, and it throws exactly what [_size] throws. *)
Theorem rect_of_one_measurement
    (H : Host) (P : MathJaxProvider) (Rect : Type)
    (bbox_rect : BBox.t -> result Rect) (b : MathBox) :
  _rect H P Rect bbox_rect b
  = match _size H P b with
    | (Ok sz, b') =>
        (bbox_rect
           (BBox.mk
              (Position.sx (position b)
               - x_offset (resolved_x_anchor b) (Size.width sz))
              (Position.sy (position b)
               - y_offset (resolved_y_anchor b) (Size.height sz)
                          (font_metrics H (font b)) (valign b'))
              (Size.width sz) (Size.height sz)), b')
    | (Throw e, b') => (Throw e, b')
    end.
Proof.
  unfold _rect. run_monad.
  destruct (_size H P b) as [[sz | e] b'] eqn:Hs; [| reflexivity].
  pose proof (size_again H P b b' _ Hs) as Hagain.
  rewrite (computed_position_of_size H P b' b' sz Hagain).
  pose proof (size_frame H P b _ _ Hs) as Hb.
  unfold resolved_x_anchor, resolved_y_anchor.
  replace (position b') with (position b) by (rewrite Hb; reflexivity).
  replace (font b') with (font b) by (rewrite Hb; reflexivity).
  replace (_x_anchor b') with (_x_anchor b) by (rewrite Hb; reflexivity).
  replace (_y_anchor b') with (_y_anchor b) by (rewrite Hb; reflexivity).
  reflexivity.
Qed.

(** ** What painting leaves of the box *)

Lemma computed_position_frame (H : Host) (P : MathJaxProvider) (b b' : MathBox)
    (r : result (float * float)) :
  _computed_position H P b = (r, b') -> b' = set_valign (valign b') b.
Proof.
  unfold _computed_position. run_monad.
  destruct (_size H P b) as [[sz | e] b1] eqn:Hs; intros [= <- <-];
    exact (size_frame H P b _ _ Hs).
Qed.

Lemma composite_frame (H : Host) (P : MathJaxProvider) (x y : float)
    (w w' : World) (r : result unit) :
  composite H P x y w = (r, w') ->
  box w' = set_valign (valign (box w')) (box w).
Proof.
  unfold composite, on_box, issue.
  destruct (MathJax P) as [mj |]; run_monad;
    [| intros [= <- <-]; now rewrite set_valign_same].
  destruct (to_svg H P (box w)) as [svg | e];
    [| intros [= <- <-]; now rewrite set_valign_same].
  destruct (svg_size H P (box w)) as [[size | e] b1] eqn:Hs;
    [| intros [= <- <-]; exact (svg_size_frame H P _ _ _ Hs)].
  cbn [box ctx console].
  destruct (new_MathJaxCanvas mj svg size) as [canvas | e];
    intros [= <- <-]; exact (svg_size_frame H P _ _ _ Hs).
Qed.

(** X3: whatever happens during [paint], the box it leaves differs from the
    box it was given in [valign] at most. *)
Theorem paint_changes_only_valign
    (H : Host) (P : MathJaxProvider) (w : World) :
  box (snd (paint H P w))
  = set_valign (valign (box (snd (paint H P w)))) (box w).
Proof.
  unfold paint, on_box, issue, try_catch, fallback, console_error.
  run_monad. cbn [box ctx console].
  destruct (_computed_position H P (box w)) as [[[x y] | e] b1] eqn:Hp;
    cbn [snd box ctx console];
    pose proof (computed_position_frame H P _ _ _ Hp) as Hb1;
    [| exact Hb1].
  match goal with
  | |- context [composite H P x y ?w1] =>
      destruct (composite H P x y w1) as [[[] | e] w2] eqn:Hc;
      pose proof (composite_frame H P x y w1 w2 _ Hc) as Hb2
  end; cbn [snd box ctx console] in *;
    rewrite Hb2, Hb1; reflexivity.
Qed.

(** ** Heights and anchors with the engine loaded *)

Lemma size_loaded_inv (H : Host) (P : MathJaxProvider) (mj : MathJaxAPI)
    (b b' : MathBox) (sz : Size.t) :
  MathJax P = Some mj ->
  _size H P b = (Ok sz, b') ->
  exists sz0,
    svg_size H P b = (Ok sz0, b')
    /\ sz = Size.mk (Size.width sz0 * percent_scale (width b))
                    (Num.max (Size.height sz0)
                             (FontMetrics.height (font_metrics H (font b)))
                     * percent_scale (height b)).
Proof.
  intros Hmj. unfold _size. rewrite Hmj. run_monad.
  destruct (svg_size H P b) as [[sz0 | e] b0] eqn:Hs; [| discriminate].
  destruct (svg_size_keeps_constraints H P b _ b0 Hs) as (Hw & Hh & _).
  rewrite Hw, Hh. intros [= <- <-]. exists sz0. split; reflexivity.
Qed.

(** X4: with the engine loaded and no percentage height declared, the
    reported height is never below the line height of the active font,
    whatever the vector graphic measures (NaN measurements apart). *)
Theorem size_height_at_least_line
    (H : Host) (P : MathJaxProvider) (mj : MathJaxAPI)
    (b b' : MathBox) (sz : Size.t) :
  MathJax P = Some mj ->
  _size H P b = (Ok sz, b') ->
  is_percent (height b) = false ->
  Num.is_nan (Size.height sz) = false ->
  (FontMetrics.height (font_metrics H (font b)) <=? Size.height sz)%float = true.
Proof.
  intros Hmj Hs Hp Hn.
  destruct (size_loaded_inv H P mj b b' sz Hmj Hs) as (sz0 & _ & ->).
  cbn [Size.height] in *.
  rewrite (percent_scale_not_percent _ Hp), NumFacts.mul_1_r in *.
  set (h := Size.height sz0) in *.
  set (line := FontMetrics.height (font_metrics H (font b))) in *.
  assert (Hab : Num.is_nan h = false /\ Num.is_nan line = false).
  { unfold Num.max in Hn.
    destruct (Num.is_nan h), (Num.is_nan line); cbn [orb] in Hn;
      try (vm_compute in Hn; discriminate). split; reflexivity. }
  destruct Hab as [Hh Hl]. now apply NumOrder.max_leb_r.
Qed.

Lemma size_height_at_least_line_witness :
  let P := Demo.provider_with (Demo.engine Demo.svg_plain) in
  (FontMetrics.height (font_metrics Demo.host (font (Demo.tex_box None 1)))
   <=? 30)%float = true.
Proof.
  cbv zeta.
  refine (size_height_at_least_line Demo.host
            (Demo.provider_with (Demo.engine Demo.svg_plain))
            (Demo.engine Demo.svg_plain)
            (Demo.tex_box None 1) (Demo.tex_box None 1)
            (Size.mk 18 30) _ _ _ _);
    vm_compute; reflexivity.
Defined.

(** X5: with the engine loaded and no percentage height declared, the
    overflow corrections are never applied: a top anchor puts [y] exactly at
    the caret's [sy] and a bottom anchor at [sy - height]; with a left
    anchor as well, the origin of a top-anchored box is exactly the caret. *)
Theorem anchors_without_overflow
    (H : Host) (P : MathJaxProvider) (mj : MathJaxAPI)
    (b b' : MathBox) (sz : Size.t) :
  MathJax P = Some mj ->
  _size H P b = (Ok sz, b') ->
  is_percent (height b) = false ->
  let sx := Position.sx (position b) in
  let sy := Position.sy (position b) in
  let x := (sx - x_offset (resolved_x_anchor b) (Size.width sz))%float in
  (resolved_y_anchor b = YTop ->
   _computed_position H P b = (Ok (x, sy), b'))
  /\ (resolved_y_anchor b = YBottom ->
      _computed_position H P b = (Ok (x, (sy - Size.height sz)%float), b'))
  /\ (resolved_y_anchor b = YTop -> resolved_x_anchor b = XLeft ->
      _computed_position H P b = (Ok (sx, sy), b')).
Proof.
  intros Hmj Hs Hp sx sy x.
  pose proof (computed_position_of_size H P b b' sz Hs) as Hpos.
  destruct (size_loaded_inv H P mj b b' sz Hmj Hs) as (sz0 & _ & Hsz).
  assert (Hno : (Size.height sz <? FontMetrics.height (font_metrics H (font b)))%float
                = false).
  { rewrite Hsz. cbn [Size.height].
    rewrite (percent_scale_not_percent _ Hp), NumFacts.mul_1_r.
    apply NumOrder.max_ltb_r. }
  repeat split.
  - intros Hy. rewrite Hpos, Hy. unfold y_offset. rewrite Hno.
    rewrite NumOrder.sub_0_r. reflexivity.
  - intros Hy. rewrite Hpos, Hy. unfold y_offset. rewrite Hno. reflexivity.
  - intros Hy Hx. rewrite Hpos, Hy, Hx. unfold y_offset, x_offset. rewrite Hno.
    rewrite !NumOrder.sub_0_r. reflexivity.
Qed.

Lemma anchors_without_overflow_witness :
  _computed_position Demo.host
    (Demo.provider_with (Demo.engine Demo.svg_aligned)) (Demo.tex_box None 1)
  = (Ok (100, 100)%float, set_valign 2 (Demo.tex_box None 1)).
Proof.
  refine (proj2 (proj2 (anchors_without_overflow Demo.host
                          (Demo.provider_with (Demo.engine Demo.svg_aligned))
                          (Demo.engine Demo.svg_aligned)
                          (Demo.tex_box None 1)
                          (set_valign 2 (Demo.tex_box None 1))
                          (Size.mk 18 30) _ _ _)) _ _);
    vm_compute; reflexivity.
Defined.

(** ** The vertical correction read from the vector graphic *)

(** X6: when the vector graphic's style declares a [vertical-align] length,
    [svg_size] stores it as the box's [valign], an [ex] length multiplied by
    the font's x-height and a [px] length as it is, and returns the declared
    width and height multiplied by the x-height. *)
Theorem svg_size_reads_valign
    (H : Host) (P : MathJaxProvider) (mj : MathJaxAPI) (b : MathBox)
    (el : SVGSVGElement) (style : string) (l : Length.t) :
  MathJax P = Some mj ->
  to_svg H P b = Ok (Some el) ->
  assoc "style" (attributes el) = Some style ->
  v_align_of H style = Ok (Some l) ->
  let xh := FontMetrics.x_height (font_metrics H (font b)) in
  let measured :=
    Size.mk (xh * attr_number H (assoc "width" (attributes el)))
            (xh * attr_number H (assoc "height" (attributes el))) in
  (Length.unit l = "ex" ->
   svg_size H P b = (Ok measured, set_valign (Length.value l * xh) b))
  /\ (Length.unit l = "px" ->
      svg_size H P b = (Ok measured, set_valign (Length.value l) b)).
Proof.
  intros Hmj Hsvg Hstyle Hv xh measured.
  unfold svg_size. rewrite Hmj. run_monad. rewrite Hsvg.
  cbn [getAttribute]. rewrite Hstyle, Hv. unfold store_valign.
  split; intros ->; reflexivity.
Qed.

Lemma svg_size_reads_valign_witness :
  svg_size Demo.host (Demo.provider_with (Demo.engine Demo.svg_aligned))
    (Demo.tex_box None 1)
  = (Ok (Size.mk 18 12), set_valign 2 (Demo.tex_box None 1)).
Proof.
  refine (proj2 (svg_size_reads_valign Demo.host
                   (Demo.provider_with (Demo.engine Demo.svg_aligned))
                   (Demo.engine Demo.svg_aligned) (Demo.tex_box None 1)
                   Demo.svg_aligned "vertical-align: 2px;" (Length.mk 2 "px")
                   _ _ _ _) _);
    vm_compute; reflexivity.
Defined.

Lemma to_svg_is_first_child (H : Host) (P : MathJaxProvider)
    (mj : MathJaxAPI) (b : MathBox) :
  MathJax P = Some mj -> to_svg H P b = first_child (conversion H mj b).
Proof.
  intros Hmj.
  unfold to_svg, conversion, TeXBox_to_svg, MathMLBox_to_svg, AsciiBox_to_svg.
  rewrite Hmj. destruct (kind b); reflexivity.
Qed.

(** X7: when the conversion of the box's dialect returns a container
    without children, [to_svg] returns undefined without complaint; the size
    and position computations then throw a TypeError on reading the height
    attribute and leave the box untouched. *)
Theorem size_of_empty_container
    (H : Host) (P : MathJaxProvider) (mj : MathJaxAPI) (b : MathBox) :
  MathJax P = Some mj ->
  conversion H mj b = Ok [] ->
  to_svg H P b = Ok None
  /\ _size H P b
     = (Throw (TypeError "Cannot read properties of undefined (reading 'getAttribute')"), b)
  /\ _computed_position H P b
     = (Throw (TypeError "Cannot read properties of undefined (reading 'getAttribute')"), b).
Proof.
  intros Hmj Hconv.
  assert (Hsvg : to_svg H P b = Ok None).
  { rewrite (to_svg_is_first_child H P mj b Hmj), Hconv. reflexivity. }
  assert (Hsize : _size H P b
                  = (Throw (TypeError "Cannot read properties of undefined (reading 'getAttribute')"), b)).
  { unfold _size, svg_size. rewrite Hmj. run_monad. rewrite Hsvg. reflexivity. }
  repeat split; [exact Hsvg | exact Hsize |].
  exact (computed_position_throws_with_size H P b b _ Hsize).
Qed.

Lemma size_of_empty_container_witness :
  to_svg Demo.host (Demo.provider_with Demo2.engine_empty)
    (Demo.mathml_box "<math>X</math>")
  = Ok None.
Proof.
  refine (proj1 (size_of_empty_container Demo.host
                   (Demo.provider_with Demo2.engine_empty) Demo2.engine_empty
                   (Demo.mathml_box "<math>X</math>") _ _));
    vm_compute; reflexivity.
Defined.

(** ** Style declarations *)

Lemma split_nonempty (c : ascii) (s : string) : Str.split c s <> [].
Proof.
  destruct s as [| d s]; cbn [Str.split]; [discriminate |].
  destruct (Ascii.eqb d c); [discriminate |].
  destruct (Str.split c s); discriminate.
Qed.

Lemma split_no_char (c : ascii) (s : string) :
  has_char c s = false -> Str.split c s = [s].
Proof.
  induction s as [| d s IH]; cbn [has_char Str.split]; [reflexivity |].
  intros Hno. apply orb_false_elim in Hno. destruct Hno as [Hd Hs].
  rewrite Hd, (IH Hs). reflexivity.
Qed.

Lemma split_app (c : ascii) (s t : string) :
  Str.split c (s ++ String c t) = (Str.split c s ++ Str.split c t)%list.
Proof.
  induction s as [| d s IH]; cbn [append Str.split app].
  - rewrite Ascii.eqb_refl. reflexivity.
  - rewrite IH. destruct (Ascii.eqb d c); [reflexivity |].
    destruct (Str.split c s) as [| h l] eqn:Hsp; [| reflexivity].
    now destruct (split_nonempty c s).
Qed.

Lemma split_has_char (c : ascii) (s : string) :
  has_char c s = true -> exists h v l, Str.split c s = h :: v :: l.
Proof.
  induction s as [| d s IH]; cbn [has_char Str.split]; [discriminate |].
  destruct (Ascii.eqb d c); cbn [orb].
  - intros _. destruct (Str.split c s) as [| v l] eqn:Hsp.
    + now destruct (split_nonempty c s).
    + now exists EmptyString, v, l.
  - intros Hs. destruct (IH Hs) as (h & v & l & ->). now exists (String d h), v, l.
Qed.

Lemma add_rule_ok (m : list (string * string)) (p : string) :
  is_ok (add_rule m p) = well_formed_declaration p.
Proof.
  unfold add_rule, well_formed_declaration.
  destruct (has_char ":" p) eqn:Hc.
  - destruct (split_has_char ":" p Hc) as (h & v & l & ->).
    rewrite orb_true_r. destruct (Str.is_empty h); reflexivity.
  - rewrite (split_no_char ":" p Hc), orb_false_r.
    destruct (Str.is_empty p); reflexivity.
Qed.

(** X8: the loop over the style declarations completes exactly when every
    declaration is empty or contains a colon; a nonempty declaration without
    a colon makes it throw, whatever map was built before. *)
Theorem add_rules_ok (m : list (string * string)) (props : list string) :
  is_ok (add_rules m props) = forallb well_formed_declaration props.
Proof.
  revert m. induction props as [| p props IH]; intros m; cbn [add_rules forallb];
    [reflexivity |].
  rewrite <- (add_rule_ok m p).
  destruct (add_rule m p) as [m' | e]; cbn [is_ok andb]; [apply IH | reflexivity].
Qed.

Lemma add_rules_app (m : list (string * string)) (ps qs : list string) :
  add_rules m (ps ++ qs)
  = match add_rules m ps with
    | Ok m' => add_rules m' qs
    | Throw e => Throw e
    end.
Proof.
  revert m. induction ps as [| p ps IH]; intros m; cbn [app add_rules];
    [reflexivity |].
  destruct (add_rule m p) as [m' | e]; [apply IH | reflexivity].
Qed.

(** X9: a [vertical-align] declaration appended to a style that the loop
    can process decides the parsed length, whatever the style declared
    before: the last declaration wins, and its value is trimmed. *)
Theorem last_vertical_align_wins
    (H : Host) (style value : string) (m : list (string * string)) :
  add_rules [] (Str.split ";" style) = Ok m ->
  has_char ";" value = false ->
  has_char ":" value = false ->
  v_align_of H (style ++ ";vertical-align:" ++ value)
  = parse_css_length H (Some (Str.trim value)).
Proof.
  intros Hm Hsemi Hcolon. unfold v_align_of.
  change (style ++ ";vertical-align:" ++ value)
    with (style ++ String ";" ("vertical-align:" ++ value)).
  rewrite split_app, add_rules_app, Hm.
  rewrite (split_no_char ";" ("vertical-align:" ++ value)) by exact Hsemi.
  cbn [add_rules]. unfold add_rule.
  change ("vertical-align:" ++ value)
    with ("vertical-align" ++ String ":" value).
  rewrite split_app.
  rewrite (split_no_char ":" "vertical-align") by reflexivity.
  rewrite (split_no_char ":" value Hcolon).
  cbn [app Str.is_empty]. cbn [assoc].
  change (Str.trim "vertical-align") with "vertical-align".
  rewrite String.eqb_refl. reflexivity.
Qed.

Lemma last_vertical_align_wins_witness :
  v_align_of Demo.host ("vertical-align: 5pt; color: red" ++ ";vertical-align:" ++ " 2px ")
  = Ok (Some (Length.mk 2 "px")).
Proof.
  refine (last_vertical_align_wins Demo.host "vertical-align: 5pt; color: red"
            " 2px " _ _ _ _);
    vm_compute; reflexivity.
Defined.

(** ** Painting *)

(** The text commands of the [catch] block. *)
Lemma fallback_run (H : Host) (x y : float) (e : exn) (w : World) :
  fallback H x y e w
  = (Ok tt,
     {| box := box w;
        ctx := ctx w
                 ++ [ SetFillStyle (color (box w)); SetFont (font (box w));
                      SetTextAlign "left"; SetTextBaseline "alphabetic";
                      FillText (text (box w)) x
                        (y + FontMetrics.ascent (font_metrics H (font (box w)))) ];
        console := console w ++ [e] |}).
Proof. reflexivity. Qed.

(** X10: once the position has been computed, [paint] returns normally
    whatever the guarded block does: the surface receives [Save], the
    rotation about the caret, some further commands and one closing
    [Restore], and at most one error is logged. *)
Theorem paint_completes_after_position
    (H : Host) (P : MathJaxProvider) (w : World) (x y : float) (b1 : MathBox) :
  _computed_position H P (box w) = (Ok (x, y), b1) ->
  exists (mid : list Cmd) (logged : list exn) (b2 : MathBox),
    paint H P w
    = (Ok tt,
       {| box := b2;
          ctx := ctx w ++ [Save]
                   ++ rotation (Position.sx (position (box w)))
                               (Position.sy (position (box w)))
                               (angle (box w))
                   ++ mid ++ [Restore];
          console := console w ++ logged |})
    /\ (List.length logged <= 1)%nat.
Proof.
  intros Hpos. rewrite (paint_after_position H P w x y b1 Hpos). cbv zeta.
  match goal with
  | |- context [composite H P x y ?w1] =>
      set (w0 := w1);
      assert (Hc : exists mid : list Cmd,
                 ctx (snd (composite H P x y w0)) = (ctx w0 ++ mid)%list
                 /\ console (snd (composite H P x y w0)) = console w0)
  end.
  { unfold composite, on_box, issue.
    destruct (MathJax P) as [mj |]; run_monad;
      [| exists []; cbn; now rewrite app_nil_r].
    destruct (to_svg H P (box w0)) as [svg | e];
      [| exists []; cbn; now rewrite app_nil_r].
    destruct (svg_size H P (box w0)) as [[size | e] b3];
      [| exists []; cbn; now rewrite app_nil_r].
    cbn [box ctx console].
    destruct (new_MathJaxCanvas mj svg size) as [canvas | e];
      [| exists []; cbn; now rewrite app_nil_r].
    exists ([Translate x y] ++ fst (draw canvas))%list.
    destruct (snd (draw canvas)); cbn [snd ctx console];
      now rewrite <- app_assoc. }
  destruct Hc as (mid & Hctx & Hcon).
  destruct (composite H P x y w0) as [[[] | e] w2]; cbn [snd] in Hctx, Hcon.
  - exists mid, [], (box w2). split; [| cbn; lia].
    rewrite Hctx, Hcon, app_nil_r. subst w0. cbn [ctx console].
    rewrite <- !app_assoc. reflexivity.
  - exists (mid ++ [ SetFillStyle (color (box w2)); SetFont (font (box w2));
                     SetTextAlign "left"; SetTextBaseline "alphabetic";
                     FillText (text (box w2)) x
                       (y + FontMetrics.ascent (font_metrics H (font (box w2)))) ])%list,
      [e], (box w2).
    split; [| cbn; lia].
    rewrite Hctx, Hcon. subst w0. cbn [ctx console].
    rewrite <- !app_assoc. reflexivity.
Qed.

Lemma paint_completes_after_position_witness :
  fst (paint Demo.host (Demo.provider_with Demo2.engine_failing_draw)
         (Demo2.world Demo2.rotated_box))
  = Ok tt.
Proof.
  destruct (paint_completes_after_position Demo.host
              (Demo.provider_with Demo2.engine_failing_draw)
              (Demo2.world Demo2.rotated_box) 91 85 Demo2.rotated_box)
    as (mid & logged & b2 & Hpaint & _).
  - vm_compute. reflexivity.
  - rewrite Hpaint. reflexivity.
Defined.

(** X11: with the engine loaded, the vector graphic acquired and the
    compositor constructed, [paint] hands the compositor the unscaled size
    of [svg_size], translates to the computed position and lets it draw.
    When the drawing completes nothing else is issued or logged; when it
    throws, the fallback text is issued at [(x, y + ascent)] while the
    translation to [(x, y)] is still in force, and the error is logged.  In
    both cases the state is restored once at the end. *)
Theorem paint_with_compositor
    (H : Host) (P : MathJaxProvider) (mj : MathJaxAPI) (w : World)
    (sz sz0 : Size.t) (b1 : MathBox) (svg : option SVGSVGElement)
    (canvas : MathJaxCanvas) :
  MathJax P = Some mj ->
  _size H P (box w) = (Ok sz, b1) ->
  to_svg H P (box w) = Ok svg ->
  svg_size H P (box w) = (Ok sz0, b1) ->
  new_MathJaxCanvas mj svg sz0 = Ok canvas ->
  let b := box w in
  let x := (Position.sx (position b)
            - x_offset (resolved_x_anchor b) (Size.width sz))%float in
  let y := (Position.sy (position b)
            - y_offset (resolved_y_anchor b) (Size.height sz)
                       (font_metrics H (font b)) (valign b1))%float in
  paint H P w
  = (Ok tt,
     {| box := b1;
        ctx := ctx w ++ [Save]
                 ++ rotation (Position.sx (position b)) (Position.sy (position b))
                             (angle b)
                 ++ [Translate x y] ++ fst (draw canvas)
                 ++ match snd (draw canvas) with
                    | Ok _ => []
                    | Throw _ =>
                        [ SetFillStyle (color b); SetFont (font b);
                          SetTextAlign "left"; SetTextBaseline "alphabetic";
                          FillText (text b) x
                            (y + FontMetrics.ascent (font_metrics H (font b))) ]
                    end
                 ++ [Restore];
        console := console w
                     ++ match snd (draw canvas) with
                        | Ok _ => []
                        | Throw e => [e]
                        end |}).
Proof.
  intros Hmj Hsize Hsvg Hs0 Hcanvas b x y.
  pose proof (computed_position_of_size H P (box w) b1 sz Hsize) as Hpos.
  rewrite (paint_after_position H P w x y b1 Hpos). cbv zeta.
  pose proof (svg_size_frame H P _ _ _ Hs0) as Hb1.
  assert (Hsvg1 : to_svg H P b1 = Ok svg).
  { rewrite Hb1, to_svg_set_valign. exact Hsvg. }
  pose proof (svg_size_settled H P _ _ _ Hs0) as Hs1.
  assert (Hcolor : color b1 = color b) by (rewrite Hb1; reflexivity).
  assert (Hfont : font b1 = font b) by (rewrite Hb1; reflexivity).
  assert (Htext : text b1 = text b) by (rewrite Hb1; reflexivity).
  unfold composite, on_box, issue. rewrite Hmj. run_monad.
  cbn [box ctx console]. rewrite Hsvg1, Hs1. cbn [box ctx console].
  rewrite Hcanvas. cbn [box ctx console].
  destruct (snd (draw canvas)) as [[] | e]; cbn [box ctx console];
    rewrite ?Hcolor, ?Hfont, ?Htext, ?app_nil_r, <- ?app_assoc; reflexivity.
Qed.

Lemma paint_with_compositor_witness :
  paint Demo.host (Demo.provider_with Demo2.engine_failing_draw)
    (Demo2.world Demo2.rotated_box)
  = (Ok tt,
     {| box := Demo2.rotated_box;
        ctx := [ Save;
                 Translate 100 100; Rotate 0.5; Translate (-100) (-100);
                 Translate 91 85; Composite "partial";
                 SetFillStyle "#ff0000"; SetFont "normal 13px sans";
                 SetTextAlign "left"; SetTextBaseline "alphabetic";
                 FillText "x^2" 91 95;
                 Restore ];
        console := [Foreign "draw failed"] |}).
Proof.
  refine (paint_with_compositor Demo.host
            (Demo.provider_with Demo2.engine_failing_draw)
            Demo2.engine_failing_draw (Demo2.world Demo2.rotated_box)
            (Size.mk 18 30) (Size.mk 18 12) Demo2.rotated_box
            (Some Demo.svg_plain) Demo2.canvas_failing _ _ _ _ _);
    vm_compute; reflexivity.
Defined.

(** X12: whenever the provider is in a state other than [loaded], [paint]
    does not throw: it logs one TypeError and draws the raw text in the box's
    color and font, left-aligned on the alphabetic baseline, at the position
    computed from the placeholder size 13 by 13, shifted down by the
    ascent, between one [Save] and one [Restore]. *)
Theorem paint_falls_back_when_not_loaded
    (H : Host) (P : MathJaxProvider) (w : World) :
  provider_consistent P ->
  status P <> loaded ->
  let b := box w in
  let x := (Position.sx (position b) - x_offset (resolved_x_anchor b) 13)%float in
  let y := (Position.sy (position b)
            - y_offset (resolved_y_anchor b) 13 (font_metrics H (font b)) (valign b))%float in
  paint H P w
  = (Ok tt,
     {| box := b;
        ctx := ctx w ++ [Save]
                 ++ rotation (Position.sx (position b)) (Position.sy (position b)) (angle b)
                 ++ [ SetFillStyle (color b); SetFont (font b);
                      SetTextAlign "left"; SetTextBaseline "alphabetic";
                      FillText (text b) x
                        (y + FontMetrics.ascent (font_metrics H (font b))) ]
                 ++ [Restore];
        console := console w
                     ++ [TypeError "Cannot read properties of null (reading 'MathJaxCanvas')"] |}).
Proof.
  intros Hc Hs b x y.
  assert (Hmj : MathJax P = None).
  { unfold provider_consistent in Hc.
    destruct (MathJax P); [contradiction | reflexivity]. }
  rewrite (paint_without_engine H P w Hmj). cbv zeta.
  rewrite <- !app_assoc. reflexivity.
Qed.

Lemma paint_falls_back_when_not_loaded_witness :
  paint Demo.host Demo.provider_loading (Demo2.world Demo2.rotated_box)
  = (Ok tt,
     {| box := Demo2.rotated_box;
        ctx := [ Save;
                 Translate 100 100; Rotate 0.5; Translate (-100) (-100);
                 SetFillStyle "#ff0000"; SetFont "normal 13px sans";
                 SetTextAlign "left"; SetTextBaseline "alphabetic";
                 FillText "x^2" 93.5 103.5;
                 Restore ];
        console := [TypeError "Cannot read properties of null (reading 'MathJaxCanvas')"] |}).
Proof.
  refine (paint_falls_back_when_not_loaded Demo.host Demo.provider_loading
            (Demo2.world Demo2.rotated_box) _ _).
  - exact I.
  - discriminate.
Defined.

(** ** Style assignment and position *)

Lemma computed_position_same_offset (H : Host) (P : MathJaxProvider)
    (b : MathBox) (o1 o2 : option YAnchor) (d1 d2 : YAnchor) :
  y_offset (resolved_y_anchor (with_y o1 d1 b))
  = y_offset (resolved_y_anchor (with_y o2 d2 b)) ->
  fst (_computed_position H P (with_y o1 d1 b))
  = fst (_computed_position H P (with_y o2 d2 b)).
Proof.
  intros Hoff. unfold _computed_position. run_monad. rewrite !size_with_y.
  destruct (_size H P b) as [[sz | e] b1] eqn:Hs; cbn [fst snd]; [| reflexivity].
  assert (Hr : forall o' d',
             resolved_y_anchor (with_y o' d' b1)
             = resolved_y_anchor (with_y o' d' b)).
  { intros o' d'. rewrite (size_frame H P b _ _ Hs). reflexivity. }
  rewrite !Hr, Hoff. reflexivity.
Qed.

Lemma set_visuals_baseline (H : Host) (v : Visuals.t) (k : string)
    (b : MathBox) :
  Position.y_anchor (position b) = None ->
  set_visuals H (set_baseline k v) b
  = with_y None (y_anchor_of_baseline k) (set_visuals H v b).
Proof.
  intros Hnone. unfold set_visuals, with_y, set_y_anchor_default, set_position.
  cbn. destruct (position b) as [sx sy xa ya]. cbn in *. subst ya. reflexivity.
Qed.

(** X13: for a box whose position carries no vertical anchor of its own, a
    style whose baseline keyword is neither top, middle nor bottom (such as
    alphabetic or hanging) places the box exactly where the keyword middle
    places it. *)
Theorem other_baselines_place_as_middle
    (H : Host) (P : MathJaxProvider) (v : Visuals.t) (k : string) (b : MathBox) :
  Position.y_anchor (position b) = None ->
  String.eqb k "top" = false ->
  String.eqb k "middle" = false ->
  String.eqb k "bottom" = false ->
  fst (_computed_position H P (set_visuals H (set_baseline k v) b))
  = fst (_computed_position H P (set_visuals H (set_baseline "middle" v) b)).
Proof.
  intros Hnone Ht Hm Hb.
  rewrite !(set_visuals_baseline H v _ b Hnone).
  apply computed_position_same_offset.
  unfold y_anchor_of_baseline. rewrite Ht, Hm, Hb. reflexivity.
Qed.

Lemma other_baselines_place_as_middle_witness :
  fst (_computed_position Demo.host
         (Demo.provider_with (Demo.engine Demo.svg_plain))
         (set_visuals Demo.host (set_baseline "alphabetic" Demo.style)
            (Demo.tex_box None 1)))
  = fst (_computed_position Demo.host
           (Demo.provider_with (Demo.engine Demo.svg_plain))
           (set_visuals Demo.host (set_baseline "middle" Demo.style)
              (Demo.tex_box None 1))).
Proof.
  refine (other_baselines_place_as_middle Demo.host _ Demo.style "alphabetic"
            (Demo.tex_box None 1) _ _ _ _);
    reflexivity.
Defined.

(** A style assignment keeps no trace of the one before it: assigning
    [v2] after [v1] gives the box that assigning [v2] alone gives, and the
    text, the vertical correction, the position, the angle and the declared
    constraints are never touched. *)
Theorem set_visuals_last_wins (H : Host) (v1 v2 : Visuals.t) (b : MathBox) :
  set_visuals H v2 (set_visuals H v1 b) = set_visuals H v2 b
  /\ text (set_visuals H v1 b) = text b
  /\ valign (set_visuals H v1 b) = valign b
  /\ position (set_visuals H v1 b) = position b
  /\ angle (set_visuals H v1 b) = angle b
  /\ width (set_visuals H v1 b) = width b
  /\ height (set_visuals H v1 b) = height b.
Proof. repeat split. Qed.

(** ** Bold formulas *)

Lemma prefix_app (sub s t : string) :
  String.prefix sub s = true -> String.prefix sub (s ++ t) = true.
Proof.
  revert s. induction sub as [| c sub IH]; intros s.
  - intros _. destruct (s ++ t); reflexivity.
  - destruct s as [| d s]; cbn; [discriminate |].
    destruct (ascii_dec c d); [apply IH | discriminate].
Qed.

Lemma indexOf_from_found_shift (sub s : string) (i j : Z) :
  (0 <= i)%Z -> (0 <= j)%Z ->
  (0 <=? Str.indexOf_from sub s i)%Z = (0 <=? Str.indexOf_from sub s j)%Z.
Proof.
  revert i j. induction s as [| d s IH]; intros i j Hi Hj;
    cbn [Str.indexOf_from].
  - destruct (String.prefix sub EmptyString); [| reflexivity].
    rewrite (proj2 (Z.leb_le 0 i) Hi), (proj2 (Z.leb_le 0 j) Hj). reflexivity.
  - destruct (String.prefix sub (String d s)).
    + rewrite (proj2 (Z.leb_le 0 i) Hi), (proj2 (Z.leb_le 0 j) Hj). reflexivity.
    + apply IH; lia.
Qed.

Lemma indexOf_from_app_l (sub s t : string) (i : Z) :
  (0 <= i)%Z ->
  (0 <=? Str.indexOf_from sub s i)%Z = true ->
  (0 <=? Str.indexOf_from sub (s ++ t) i)%Z = true.
Proof.
  revert i. induction s as [| d s IH]; intros i Hi.
  - cbn [Str.indexOf_from append].
    destruct (String.prefix sub EmptyString) eqn:Hp; [| discriminate].
    intros _. pose proof (prefix_app sub EmptyString t Hp) as Hpt.
    cbn [append] in Hpt.
    destruct t; cbn [Str.indexOf_from]; rewrite Hpt; apply Z.leb_le; lia.
  - cbn [Str.indexOf_from append].
    destruct (String.prefix sub (String d s)) eqn:Hp.
    + intros _. pose proof (prefix_app _ _ t Hp) as Hpt.
      cbn [append] in Hpt. rewrite Hpt. apply Z.leb_le; lia.
    + intros Hfound.
      destruct (String.prefix sub (String d (s ++ t)));
        [apply Z.leb_le; lia | apply IH; [lia | exact Hfound]].
Qed.

Lemma indexOf_from_app_r (sub s t : string) (i : Z) :
  (0 <= i)%Z ->
  (0 <=? Str.indexOf_from sub t i)%Z = true ->
  (0 <=? Str.indexOf_from sub (s ++ t) i)%Z = true.
Proof.
  revert i. induction s as [| d s IH]; intros i Hi Hfound;
    cbn [append]; [exact Hfound |].
  cbn [Str.indexOf_from].
  destruct (String.prefix sub (String d (s ++ t)));
    [apply Z.leb_le; lia |].
  apply IH; [lia |].
  rewrite (indexOf_from_found_shift sub t (i + 1) i) by lia. exact Hfound.
Qed.

Lemma includes_app_l (s t sub : string) :
  Str.includes s sub = true -> Str.includes (s ++ t) sub = true.
Proof. apply indexOf_from_app_l. lia. Qed.

Lemma includes_app_r (s t sub : string) :
  Str.includes t sub = true -> Str.includes (s ++ t) sub = true.
Proof. apply indexOf_from_app_r. lia. Qed.

(** X14: the formula is typeset bold as soon as the word bold occurs
    anywhere in the style's font style or font family, as a substring: after
    such a style assignment the TeX formula is the color prefix followed by
    the raw text wrapped in a bold group. *)
Theorem bold_from_font_style_or_family
    (H : Host) (v : Visuals.t) (b : MathBox) :
  Str.includes (Visuals.font_style v) "bold"
  || Str.includes (Visuals.font v) "bold" = true ->
  let b' := set_visuals H v b in
  TeXBox_styled_formula H b'
  = color_RGB H b' ++ " " ++ "\bf{" ++ text b ++ "}"
  /\ AsciiBox_styled_formula H b'
     = color_RGB H b' ++ " " ++ "\bf{" ++ "\text " ++ text b ++ "}".
Proof.
  intros Hbold b'.
  assert (Hb : bold b' = true).
  { unfold bold, b', set_visuals. cbn [font].
    apply orb_prop in Hbold. destruct Hbold as [Hs | Hf].
    - now apply includes_app_l.
    - apply includes_app_r. apply (includes_app_r " ").
      apply includes_app_r. apply (includes_app_r " "). exact Hf. }
  unfold TeXBox_styled_formula, AsciiBox_styled_formula. rewrite Hb.
  split; reflexivity.
Qed.

Lemma bold_from_font_style_or_family_witness :
  TeXBox_styled_formula Demo.host
    (set_visuals Demo.host
       {| Visuals.color := "#ff0000"; Visuals.alpha := 1;
          Visuals.font_style := "normal"; Visuals.font_size := "2em";
          Visuals.font := "Kabold Sans"; Visuals.align := XLeft;
          Visuals.baseline := "top" |}
       (Demo.tex_box None 1))
  = "\color[RGB]{255, 0, 0} \bf{x^2}".
Proof.
  refine (proj1 (bold_from_font_style_or_family Demo.host
                   {| Visuals.color := "#ff0000"; Visuals.alpha := 1;
                      Visuals.font_style := "normal"; Visuals.font_size := "2em";
                      Visuals.font := "Kabold Sans"; Visuals.align := XLeft;
                      Visuals.baseline := "top" |}
                   (Demo.tex_box None 1) _)).
  reflexivity.
Defined.

Lemma mathml_without_math_tag_witness :
  MathMLBox_styled_formula Demo.host (Demo.mathml_box "  x + y  ") = "x + y".
Proof.
  refine (mathml_without_math_tag_is_trimmed Demo.host
            (Demo.mathml_box "  x + y  ") _).
  reflexivity.
Defined.

(** ** The tap tool *)

Section TapToolFacts.

Import TapTool.

Variables Source Renderer RendererView Mode Callback : Type.

Variable model : Model Callback.
Variable plot : Plot Source Renderer RendererView Mode Callback.

Lemma differs_agrees (want : option bool) (got : bool) :
  differs want got = negb (agrees want got).
Proof. destruct want; reflexivity. Qed.

Lemma select_loop_extends (sources : list (Source * list Renderer))
    (g : PointGeometry.t) (final : bool) (mode : Mode)
    (mods : option KeyModifiers.t) (done : list (Action Source RendererView Mode Callback)) :
  exists more,
    select_loop model plot sources g final mode mods done = (done ++ more)%list.
Proof.
  revert done. induction sources as [| [source renderers] rest IH]; intros done;
    cbn [select_loop].
  - exists []. now rewrite app_nil_r.
  - match goal with
    | |- context [select_loop _ _ rest g final mode mods ?d] =>
        destruct (IH d) as [more ->]
    end.
    destruct (did_hit plot done source (renderer_views plot renderers));
      rewrite <- ?app_assoc; eexists; reflexivity.
Qed.

Lemma inspect_loop_extends (sources : list (Source * list Renderer))
    (g : PointGeometry.t) (final : bool) (mode : Mode)
    (mods : option KeyModifiers.t) (done : list (Action Source RendererView Mode Callback)) :
  exists more,
    inspect_loop model plot sources g final mode mods done = (done ++ more)%list.
Proof.
  revert done. induction sources as [| [source renderers] rest IH]; intros done;
    cbn [inspect_loop].
  - exists []. now rewrite app_nil_r.
  - match goal with
    | |- context [inspect_loop _ _ rest g final mode mods ?d] =>
        destruct (IH d) as [more ->]
    end.
    destruct (did_hit plot done source (renderer_views plot renderers));
      rewrite <- ?app_assoc; eexists; reflexivity.
Qed.

(** X16: a tap is acted on exactly when every modifier key the model asks
    for has the asked state in the event and the point lies inside the
    frame; then the first thing done is to clear the other overlays, and
    otherwise nothing at all is done. *)
Theorem handle_tap_gate (ev : TapEvent) :
  if agrees (Wanted.shift (wanted model)) (KeyModifiers.shift (modifiers ev))
     && agrees (Wanted.ctrl (wanted model)) (KeyModifiers.ctrl (modifiers ev))
     && agrees (Wanted.alt (wanted model)) (KeyModifiers.alt (modifiers ev))
     && frame_contains plot (sx ev) (sy ev)
  then exists rest, _handle_tap model plot ev = ClearOtherOverlays :: rest
  else _handle_tap model plot ev = [].
Proof.
  unfold _handle_tap, handle_event. rewrite !differs_agrees.
  destruct (agrees (Wanted.shift _) _); cbn [negb andb]; [| reflexivity].
  destruct (agrees (Wanted.ctrl _) _); cbn [negb andb]; [| reflexivity].
  destruct (agrees (Wanted.alt _) _); cbn [negb andb]; [| reflexivity].
  destruct (frame_contains plot (sx ev) (sy ev)); cbn [negb]; [| reflexivity].
  destruct (behavior model); unfold _select, _inspect.
  - destruct (select_loop_extends (_computed_renderers_by_data_source plot)
                (PointGeometry.mk (sx ev) (sy ev)) true
                (_select_mode plot (modifiers ev)) (Some (modifiers ev))
                [ClearOtherOverlays]) as [more ->].
    eexists. reflexivity.
  - destruct (inspect_loop_extends (_computed_renderers_by_data_source plot)
                (PointGeometry.mk (sx ev) (sy ev)) true
                (_select_mode plot (modifiers ev)) (Some (modifiers ev))
                [ClearOtherOverlays]) as [more ->].
    eexists. reflexivity.
Qed.

(** Of a tap and a double tap at most one is acted on, the one of the
    model's gesture: together the two handlers do what one handled tap
    does, and one of them does nothing. *)
Theorem one_gesture_only (ev : TapEvent) :
  (_tap model plot ev ++ _doubletap model plot ev)%list = _handle_tap model plot ev
  /\ (_tap model plot ev = [] \/ _doubletap model plot ev = []).
Proof.
  unfold _tap, _doubletap. destruct (gesture model); split;
    rewrite ?app_nil_r; auto.
Qed.

Lemma emit_callback_selections (views : list RendererView)
    (g : PointGeometry.t) (source : Source) (mods : option KeyModifiers.t) :
  filter is_selection
         (_emit_callback model plot views g source mods) = [].
Proof.
  unfold _emit_callback. destruct (callback model); [| reflexivity].
  destruct (negb (Nat.eqb (List.length views) 0)); reflexivity.
Qed.

(** X17: selecting asks the selection manager of every data source exactly
    once, in the order of the sources and with the views of its renderers
    that exist, whether or not earlier sources were hit. *)
Theorem select_asks_every_source (sources : list (Source * list Renderer))
    (g : PointGeometry.t) (final : bool) (mode : Mode)
    (mods : option KeyModifiers.t) (done : list (Action Source RendererView Mode Callback)) :
  filter is_selection
         (select_loop model plot sources g final mode mods done)
  = (filter is_selection done
       ++ map (fun sr => SelectionSelect (fst sr)
                           (renderer_views plot (snd sr)) g final mode)
              sources)%list.
Proof.
  revert done. induction sources as [| [source renderers] rest IH]; intros done;
    cbn [select_loop map fst snd].
  - now rewrite app_nil_r.
  - rewrite IH.
    destruct (did_hit plot done source (renderer_views plot renderers));
      rewrite ?filter_app, ?emit_callback_selections, ?app_nil_r;
      cbn [filter is_selection]; rewrite <- app_assoc; reflexivity.
Qed.

Lemma emit_callback_none (views : list RendererView)
    (g : PointGeometry.t) (source : Source) (mods : option KeyModifiers.t) :
  callback model = None \/ views = [] ->
  _emit_callback model plot views g source mods = [].
Proof.
  unfold _emit_callback. intros [-> | ->]; [reflexivity |].
  destruct (callback model); reflexivity.
Qed.

Lemma emit_callback_count (views : list RendererView)
    (g : PointGeometry.t) (source : Source) (mods : option KeyModifiers.t) :
  (List.length (_emit_callback model plot views g source mods) <= 1)%nat.
Proof.
  unfold _emit_callback. destruct (callback model); [| cbn; lia].
  destruct (negb (Nat.eqb (List.length views) 0)); cbn; lia.
Qed.

(** X18: selecting executes the callback at most once per data source, and
    never for a source none of whose renderers has a view; without a
    callback the trace of a selection holds the selection requests only. *)
Theorem select_callbacks_bounded (sources : list (Source * list Renderer))
    (g : PointGeometry.t) (final : bool) (mode : Mode)
    (mods : option KeyModifiers.t) (done : list (Action Source RendererView Mode Callback)) :
  (List.length (filter is_callback
                  (select_loop model plot sources g final mode mods done))
   <= List.length (filter is_callback done)
      + List.length (filter (fun sr => negb (Nat.eqb (List.length (renderer_views plot (snd sr))) 0))
                       sources))%nat
  /\ match callback model with
     | None =>
         select_loop model plot sources g final mode mods done
         = (done ++ map (fun sr => SelectionSelect (fst sr)
                                     (renderer_views plot (snd sr)) g final mode)
                        sources)%list
     | Some _ => True
     end.
Proof.
  split.
  - revert done. induction sources as [| [source renderers] rest IH];
      intros done; cbn [select_loop filter snd]; [lia |].
    match goal with
    | |- context [select_loop _ _ rest g final mode mods ?d] =>
        specialize (IH d); set (d0 := d) in *
    end.
    assert (Hd : (List.length (filter is_callback d0)
                  <= List.length (filter is_callback done)
                     + (if negb (Nat.eqb (List.length (renderer_views plot renderers)) 0)
                        then 1 else 0))%nat).
    { subst d0.
      destruct (did_hit plot done source (renderer_views plot renderers));
        rewrite ?filter_app, ?length_app; cbn [filter is_callback List.length].
      - unfold _emit_callback. destruct (callback model) as [cb |];
          [| cbn; lia].
        destruct (negb (Nat.eqb (List.length (renderer_views plot renderers)) 0));
          cbn; lia.
      - destruct (negb (Nat.eqb (List.length (renderer_views plot renderers)) 0)); lia. }
    destruct (negb (Nat.eqb (List.length (renderer_views plot renderers)) 0));
      cbn [List.length]; lia.
  - destruct (callback model) as [cb |] eqn:Hnone; [exact I |]. revert done.
    induction sources as [| [source renderers] rest IH]; intros done;
      cbn [select_loop map fst snd].
    + now rewrite app_nil_r.
    + rewrite (emit_callback_none _ g source mods (or_introl Hnone)), app_nil_r.
      destruct (did_hit plot done source (renderer_views plot renderers));
        rewrite IH, <- app_assoc; reflexivity.
Qed.

Lemma inspect_loop_quiet (sources : list (Source * list Renderer))
    (g : PointGeometry.t) (final : bool) (mode : Mode)
    (mods : option KeyModifiers.t) (done : list (Action Source RendererView Mode Callback)) :
  forallb (fun a => negb (is_state_change a)) done = true ->
  forallb (fun a => negb (is_state_change a))
          (inspect_loop model plot sources g final mode mods done) = true.
Proof.
  revert done. induction sources as [| [source renderers] rest IH]; intros done Hd;
    cbn [inspect_loop]; [exact Hd |].
  apply IH.
  assert (Hcb : forallb (fun a : Action Source RendererView Mode Callback => negb (is_state_change a))
                  (_emit_callback model plot (renderer_views plot renderers)
                     g source mods) = true).
  { unfold _emit_callback. destruct (callback model); [| reflexivity].
    destruct (negb (Nat.eqb (List.length (renderer_views plot renderers)) 0));
      reflexivity. }
  destruct (did_hit plot done source (renderer_views plot renderers));
    rewrite !forallb_app, Hd, ?Hcb; reflexivity.
Qed.

(** X19: an inspecting tap never emits a selection event and never pushes
    a state onto the plot's history; a selecting tap that is acted on ends
    with the selection event for the tapped point followed by one push,
    even when nothing was hit. *)
Theorem inspect_leaves_no_history (ev : TapEvent) :
  match behavior model with
  | inspect =>
      forallb (fun a => negb (is_state_change a)) (_handle_tap model plot ev)
      = true
  | select =>
      _handle_tap model plot ev = []
      \/ exists mid : list (Action Source RendererView Mode Callback),
           _handle_tap model plot ev
           = (ClearOtherOverlays :: mid
                ++ [EmitSelectionEvent (PointGeometry.mk (sx ev) (sy ev));
                    PushState])%list
  end.
Proof.
  unfold _handle_tap.
  destruct (behavior model);
    destruct (negb (handle_event model ev)); auto;
    destruct (negb (frame_contains plot (sx ev) (sy ev))); auto.
  - right. unfold _select.
    destruct (select_loop_extends (_computed_renderers_by_data_source plot)
                (PointGeometry.mk (sx ev) (sy ev)) true
                (_select_mode plot (modifiers ev)) (Some (modifiers ev))
                [ClearOtherOverlays]) as [more ->].
    exists more. reflexivity.
  - unfold _inspect. apply inspect_loop_quiet. reflexivity.
Qed.

End TapToolFacts.

(** ** The MathML styling where it works *)

Lemma lazy_open_attrs (attrs rest : string) :
  ends_not "?" attrs = true ->
  has_char ">" attrs = false ->
  RegExp.lazy_star RegExp.any open_rest (attrs ++ String ">" rest) = Some rest.
Proof.
  induction attrs as [| c a IH]; [discriminate |].
  intros Hend Hno. cbn [has_char] in Hno.
  apply orb_false_elim in Hno. destruct Hno as [Hc Ha].
  destruct a as [| d a'].
  - cbn [ends_not] in Hend. cbn [append RegExp.lazy_star].
    unfold open_rest. cbn [RegExp.matcher]. rewrite Hend.
    rewrite Ascii.eqb_refl. reflexivity.
  - cbn [append RegExp.lazy_star].
    assert (Hk : open_rest (String c (String d (a' ++ String ">" rest))) = None).
    { unfold open_rest. cbn [RegExp.matcher].
      destruct (RegExp.not_char "?" c); [| reflexivity].
      cbn [has_char] in Ha. apply orb_false_elim in Ha. destruct Ha as [Hd _].
      rewrite Ascii.eqb_sym, Hd. reflexivity. }
    rewrite Hk. unfold RegExp.any at 1.
    apply IH; [exact Hend | exact Ha].
Qed.

Lemma length_append (p r : string) :
  String.length (p ++ r) = String.length p + String.length r.
Proof. induction p as [| c p IH]; cbn [append String.length]; lia. Qed.

Lemma append_assoc (a b c : string) : (a ++ b) ++ c = a ++ b ++ c.
Proof. induction a as [| x a IH]; cbn [append]; [| rewrite IH]; reflexivity. Qed.

Lemma append_nil_r (a : string) : a ++ EmptyString = a.
Proof. induction a as [| x a IH]; cbn [append]; [| rewrite IH]; reflexivity. Qed.

Lemma substring_all (p : string) : String.substring 0 (String.length p) p = p.
Proof.
  induction p as [| c p IH]; cbn [String.length String.substring];
    [| rewrite IH]; reflexivity.
Qed.

Lemma substring_prefix_n (p r : string) :
  String.substring 0 (String.length p) (p ++ r) = p.
Proof.
  induction p as [| c p IH]; cbn [append String.length String.substring].
  - destruct r; reflexivity.
  - rewrite IH. reflexivity.
Qed.

Lemma substring_suffix_n (p r : string) :
  String.substring (String.length p) (String.length r) (p ++ r) = r.
Proof.
  induction p as [| c p IH]; cbn [append String.length String.substring].
  - apply substring_all.
  - exact IH.
Qed.

Lemma substring_prefix (p r : string) :
  String.substring 0 (String.length (p ++ r) - String.length r) (p ++ r) = p.
Proof.
  rewrite length_append.
  replace (String.length p + String.length r - String.length r)
    with (String.length p) by lia.
  apply substring_prefix_n.
Qed.

Lemma exec_open_attrs (attrs rest : string) :
  ends_not "?" attrs = true ->
  has_char ">" attrs = false ->
  RegExp.exec RegExp.open_math ("<math" ++ attrs ++ String ">" rest)
  = Some ("<math" ++ attrs ++ ">").
Proof.
  intros Hend Hno.
  assert (Hm : RegExp.matcher RegExp.open_math Some
                 ("<math" ++ attrs ++ String ">" rest) = Some rest).
  { change (RegExp.matcher RegExp.open_math Some
              ("<math" ++ attrs ++ String ">" rest))
      with (match RegExp.lazy_star RegExp.any open_rest (attrs ++ String ">" rest) with
            | Some x => Some x
            | None => RegExp.matcher (RegExp.Lit ">") Some (attrs ++ String ">" rest)
            end).
    rewrite (lazy_open_attrs attrs rest Hend Hno). reflexivity. }
  change ("<math" ++ attrs ++ String ">" rest)
    with (String "<" ("math" ++ attrs ++ String ">" rest)) in *.
  cbn [RegExp.exec]. rewrite Hm.
  change (String "<" ("math" ++ attrs ++ String ">" rest))
    with ("<math" ++ attrs ++ String ">" rest).
  replace ("<math" ++ attrs ++ String ">" rest)
    with (("<math" ++ attrs ++ ">") ++ rest).
  - rewrite substring_prefix. reflexivity.
  - cbn [append]. rewrite append_assoc. reflexivity.
Qed.

(** Slices of a concatenation at the seam. *)
Lemma rel_index_inside (n i : Z) :
  (0 <= i <= n)%Z -> Str.rel_index n i = i.
Proof.
  intros Hi. unfold Str.rel_index.
  rewrite (proj2 (Z.ltb_ge i 0)) by lia. lia.
Qed.

Lemma slice_prefix (p r : string) :
  Str.slice (p ++ r) 0 (Str.len p) = p.
Proof.
  unfold Str.slice, Str.len. rewrite length_append.
  rewrite !rel_index_inside by lia.
  rewrite Z.sub_0_r, Nat2Z.id. cbn [Z.to_nat]. apply substring_prefix_n.
Qed.

Lemma slice_suffix (p r : string) :
  Str.slice_from (p ++ r) (Str.len p) = r.
Proof.
  unfold Str.slice_from, Str.slice, Str.len. rewrite length_append.
  rewrite !rel_index_inside by lia.
  rewrite Nat2Z.id.
  replace (Z.to_nat (Z.of_nat (String.length p + String.length r)
                     - Z.of_nat (String.length p)))
    with (String.length r) by lia.
  apply substring_suffix_n.
Qed.

Lemma insert_at_seam (p r t : string) :
  insert_text_on_position (p ++ r) (Str.len p) t = p ++ t ++ r.
Proof.
  unfold insert_text_on_position. rewrite slice_prefix, slice_suffix. reflexivity.
Qed.

Lemma prefix_self_app (p r : string) : String.prefix p (p ++ r) = true.
Proof.
  induction p as [| c p IH]; cbn [append String.prefix].
  - destruct r; reflexivity.
  - destruct (ascii_dec c c); [exact IH | contradiction].
Qed.

Lemma indexOf_prefix (p r : string) : Str.indexOf (p ++ r) p = 0%Z.
Proof.
  unfold Str.indexOf.
  destruct (p ++ r) eqn:Heq; cbn [Str.indexOf_from];
    rewrite <- Heq, prefix_self_app; reflexivity.
Qed.

Lemma close_math_shape (s : string) :
  RegExp.matcher RegExp.close_math Some s
  = match s with
    | String c (String d u) =>
        if Ascii.eqb "<" c then
          if Ascii.eqb "/" d
          then RegExp.lazy_star (RegExp.not_char ">") close_rest u
          else None
        else None
    | String c EmptyString => None
    | EmptyString => None
    end.
Proof.
  destruct s as [| c [| d u]]; cbn [RegExp.close_math RegExp.word RegExp.matcher].
  - reflexivity.
  - destruct (Ascii.eqb "<" c); reflexivity.
  - destruct (Ascii.eqb "<" c); [| reflexivity].
    destruct (Ascii.eqb "/" d); reflexivity.
Qed.

Lemma exec_skip (pre tail : string) :
  unmatched pre tail ->
  RegExp.exec RegExp.close_math (pre ++ tail) = RegExp.exec RegExp.close_math tail.
Proof.
  induction pre as [| c p IH]; cbn [append unmatched]; [reflexivity |].
  intros [Hm Hp]. cbn [RegExp.exec]. rewrite Hm.
  exact (IH Hp).
Qed.

Lemma close_prefix_matches (s : string) :
  String.prefix "</math>" s = true ->
  RegExp.matcher RegExp.close_math Some s <> None.
Proof.
  intros Hp.
  do 7 (destruct s as [| ? s]; cbn [String.prefix] in Hp;
        [discriminate |
         destruct (ascii_dec _ _) as [<- |] in Hp; [| discriminate]]).
  cbn. discriminate.
Qed.

Lemma index_skip (pre tail : string) :
  unmatched pre tail ->
  forall i,
    Str.indexOf_from "</math>" (pre ++ tail) i
    = Str.indexOf_from "</math>" tail (i + Str.len pre)%Z.
Proof.
  induction pre as [| c p IH]; cbn [append unmatched]; intros Hu i.
  - unfold Str.len. cbn [String.length]. now rewrite Z.add_0_r.
  - destruct Hu as [Hm Hp]. cbn [Str.indexOf_from].
    destruct (String.prefix "</math>" (String c (p ++ tail))) eqn:Hpre.
    + apply close_prefix_matches in Hpre. now destruct Hpre.
    + rewrite (IH Hp). f_equal. unfold Str.len. cbn [String.length]. lia.
Qed.

Lemma unmatched_app (p1 p2 tail : string) :
  unmatched p1 (p2 ++ tail) -> unmatched p2 tail -> unmatched (p1 ++ p2) tail.
Proof.
  induction p1 as [| c p IH]; cbn [append unmatched]; [auto |].
  intros [Hm Hp] H2. split.
  - change (String c (p ++ p2) ++ tail) with (String c ((p ++ p2) ++ tail)).
    rewrite append_assoc. exact Hm.
  - exact (IH Hp H2).
Qed.

Lemma has_char_app (c : ascii) (a b : string) :
  has_char c (a ++ b) = has_char c a || has_char c b.
Proof.
  induction a as [| d a IH]; cbn [append has_char]; [reflexivity |].
  rewrite IH, orb_assoc. reflexivity.
Qed.

Lemma unmatched_no_lt (p tail : string) :
  has_char "<" p = false -> unmatched p tail.
Proof.
  induction p as [| c p IH]; cbn [has_char unmatched]; [trivial |].
  intros Hno. apply orb_false_elim in Hno. destruct Hno as [Hc Hp].
  split; [| exact (IH Hp)].
  rewrite close_math_shape. cbn [append].
  rewrite Ascii.eqb_sym, Hc. destruct (p ++ tail); reflexivity.
Qed.

Lemma unmatched_lt (c : ascii) (s : string) :
  Ascii.eqb "/" c = false -> unmatched "<" (String c s).
Proof.
  intros Hc. cbn [unmatched]. split; [| exact I].
  rewrite close_math_shape. cbn [append]. rewrite Hc. reflexivity.
Qed.

Lemma includes_cons (c : ascii) (v sub : string) :
  Str.includes (String c v) sub = false ->
  String.prefix sub (String c v) = false /\ Str.includes v sub = false.
Proof.
  unfold Str.includes, Str.indexOf. cbn [Str.indexOf_from].
  destruct (String.prefix sub (String c v)); [discriminate |].
  intros Hno. split; [reflexivity |].
  rewrite (indexOf_from_found_shift sub v 0 (0 + 1)) by lia. exact Hno.
Qed.

Lemma ends_with_tail (x c d : ascii) (v : string) :
  ends_with_or_empty x (String c (String d v)) = ends_with_or_empty x (String d v).
Proof. reflexivity. Qed.

Ltac decide_chars Hp :=
  repeat match type of Hp with
         | context [ascii_dec ?a ?b] =>
             destruct (ascii_dec a b) as [? | ?]; try discriminate; subst
         end.

Lemma prefix_math_straddle (v tail : string) :
  String.prefix "math" (v ++ tail) = true ->
  ends_with_or_empty ">" v = true ->
  v <> EmptyString ->
  String.prefix "math" v = true.
Proof.
  intros Hp He Hn.
  destruct v as [| c1 [| c2 [| c3 [| c4 r]]]]; [contradiction | | | |];
    cbn [append String.prefix] in Hp.
  - cbn in He. apply Ascii.eqb_eq in He. subst c1. decide_chars Hp.
  - cbn in He. apply Ascii.eqb_eq in He. subst c2. decide_chars Hp.
  - cbn in He. apply Ascii.eqb_eq in He. subst c3. decide_chars Hp.
  - cbn [String.prefix]. decide_chars Hp.
    repeat (destruct (ascii_dec _ _); [| contradiction]).
    destruct r; reflexivity.
Qed.

Lemma lazy_close_fail (v tail : string) :
  Str.includes v "math" = false ->
  ends_with_or_empty ">" v = true ->
  v <> EmptyString ->
  RegExp.lazy_star (RegExp.not_char ">") close_rest (v ++ tail) = None.
Proof.
  induction v as [| e v IH]; [contradiction |].
  intros Hinc Hend _.
  destruct (includes_cons e v "math" Hinc) as [Hpre Hinc'].
  cbn [append RegExp.lazy_star].
  destruct (close_rest (String e (v ++ tail))) as [r |] eqn:Hk.
  - unfold close_rest in Hk. apply matcher_word_prefix in Hk.
    change (String e (v ++ tail)) with (String e v ++ tail) in Hk.
    apply prefix_math_straddle in Hk; [congruence | exact Hend | discriminate].
  - destruct (RegExp.not_char ">" e) eqn:He; [| reflexivity].
    destruct v as [| d v'].
    + cbn in Hend. unfold RegExp.not_char in He.
      rewrite Ascii.eqb_sym, Hend in He. discriminate.
    + apply IH; [exact Hinc' | exact Hend | discriminate].
Qed.

Lemma unmatched_inner (inner tail : string) :
  Str.includes inner "math" = false ->
  ends_with_or_empty ">" inner = true ->
  unmatched inner tail.
Proof.
  induction inner as [| c v IH]; cbn [unmatched]; [trivial |].
  intros Hinc Hend.
  destruct (includes_cons c v "math" Hinc) as [_ Hinc'].
  assert (Hend' : ends_with_or_empty ">" v = true).
  { destruct v; [reflexivity | exact Hend]. }
  split; [| exact (IH Hinc' Hend')].
  rewrite close_math_shape. cbn [append].
  destruct v as [| d v']; cbn [append].
  - destruct tail as [| t0 tail']; [reflexivity |].
    destruct (Ascii.eqb "<" c) eqn:Hc; [| reflexivity].
    apply Ascii.eqb_eq in Hc. subst c. cbn in Hend. discriminate.
  - destruct (Ascii.eqb "<" c); [| reflexivity].
    destruct (Ascii.eqb "/" d) eqn:Hd; [| reflexivity].
    apply Ascii.eqb_eq in Hd. subst d.
    apply lazy_close_fail.
    + exact (proj2 (includes_cons _ _ _ Hinc')).
    + destruct v'; [cbn in Hend; discriminate | exact Hend].
    + destruct v'; [cbn in Hend; discriminate | discriminate].
Qed.

Lemma mstyle_open_unmatched (H : Host) (b : MathBox) (tail : string) :
  has_char "<" (color2hexrgb H (color b)) = false ->
  unmatched (mstyle_open H b) tail.
Proof.
  intros Hcolor. unfold mstyle_open. cbn [append].
  match goal with
  | |- unmatched (String "<" ?r) tail => apply (unmatched_app "<" r tail)
  end.
  - apply unmatched_lt. reflexivity.
  - apply unmatched_no_lt.
    unfold Str.dquote.
    repeat (progress (rewrite ?has_char_app;
                      cbn [has_char Ascii.eqb Bool.eqb andb orb])).
    rewrite Hcolor. destruct (bold b); reflexivity.
Qed.

(** X20: for a formula whose trimmed text is an opening [math] tag with
    attributes, a content and the closing [math] tag, the styled formula is
    the opening tag, the [mstyle] element's opening tag, the content,
    [</mstyle>] and the closing tag, in this order.  It is proved for
    attributes that are not empty, hold neither angle bracket and do not end
    in a question mark, a color without opening angle bracket, and a content
    that does not hold the word math and is empty or ends in a closing angle
    bracket. *)
Theorem mathml_styling_with_attributes
    (H : Host) (b : MathBox) (attrs inner : string) :
  Str.trim (text b) = "<math" ++ attrs ++ ">" ++ inner ++ "</math>" ->
  ends_not "?" attrs = true ->
  has_char ">" attrs = false ->
  has_char "<" attrs = false ->
  has_char "<" (color2hexrgb H (color b)) = false ->
  Str.includes inner "math" = false ->
  ends_with_or_empty ">" inner = true ->
  MathMLBox_styled_formula H b
  = "<math" ++ attrs ++ ">" ++ mstyle_open H b ++ inner ++ "</mstyle>" ++ "</math>".
Proof.
  intros Htrim Hend Hgt Hlt Hcolor Hmath Hinner.
  unfold MathMLBox_styled_formula. rewrite Htrim.
  change ("<math" ++ attrs ++ ">" ++ inner ++ "</math>")
    with ("<math" ++ attrs ++ String ">" (inner ++ "</math>")).
  rewrite (exec_open_attrs attrs (inner ++ "</math>") Hend Hgt).
  set (m0 := "<math" ++ attrs ++ ">").
  assert (Ht : "<math" ++ attrs ++ String ">" (inner ++ "</math>")
               = m0 ++ inner ++ "</math>").
  { unfold m0. cbn [append]. rewrite append_assoc. reflexivity. }
  rewrite Ht, indexOf_prefix, Z.add_0_l, insert_at_seam.
  set (pre := m0 ++ mstyle_open H b ++ inner).
  assert (Hs : m0 ++ mstyle_open H b ++ inner ++ "</math>" = pre ++ "</math>").
  { unfold pre. now rewrite !append_assoc. }
  assert (Hu : unmatched pre "</math>").
  { unfold pre, m0.
    apply (unmatched_app "<"
             (("math" ++ attrs ++ ">") ++ mstyle_open H b ++ inner) "</math>").
    - apply unmatched_lt. reflexivity.
    - apply unmatched_app.
      + apply unmatched_no_lt.
        cbn [append has_char Ascii.eqb Bool.eqb andb orb].
        rewrite has_char_app, Hlt. reflexivity.
      + apply unmatched_app.
        * apply mstyle_open_unmatched. exact Hcolor.
        * apply unmatched_inner; assumption. }
  rewrite Hs, (exec_skip pre "</math>" Hu).
  change (RegExp.exec RegExp.close_math "</math>") with (Some "</math>").
  unfold Str.indexOf. rewrite (index_skip pre "</math>" Hu).
  change (Str.indexOf_from "</math>" "</math>" (0 + Str.len pre))
    with (0 + Str.len pre)%Z.
  rewrite Z.add_0_l, insert_at_seam.
  unfold pre, m0. rewrite !append_assoc. reflexivity.
Qed.

Lemma mathml_styling_with_attributes_witness :
  MathMLBox_styled_formula Demo.host
    (Demo.mathml_box " <math display='block'><mi>x</mi></math> ")
  = "<math display='block'>"
      ++ mstyle_open Demo.host (Demo.mathml_box " <math display='block'><mi>x</mi></math> ")
      ++ "<mi>x</mi></mstyle></math>".
Proof.
  refine (mathml_styling_with_attributes Demo.host
            (Demo.mathml_box " <math display='block'><mi>x</mi></math> ")
            " display='block'" "<mi>x</mi>" _ _ _ _ _ _ _);
    vm_compute; reflexivity.
Defined.
